(** * Chicago Crime Observatory: a shallow embedding of [src/app.py]

    The dashboard is a linear pandas pipeline.  This development embeds the
    parts that decide its data-shaping behaviour: the resident categorizer,
    the loader's try/except and per-row coercions, the filter mask, the
    daily-trend aggregation with its rolling mean, the type-by-area grouping
    and the Vega-Lite rank window of the bar chart. *)

From Stdlib Require Import String Ascii List ZArith QArith Bool Lia Sorted.
From Stdlib Require OrderedTypeEx.
Import ListNotations.
Open Scope string_scope.

(* ================================================================= *)
(** ** Python values and strings *)

(** The cells of a pandas object column: a JSON string, a missing value
    (NaN / None) or another scalar. *)
Inductive PyVal : Type :=
| PyStr (s : string)
| PyNone
| PyNaN
| PyInt (z : Z)
| PyBool (b : bool).

Section Text.
Local Open Scope Z_scope.

(** A Python [str] is held as its UTF-8 encoding, the bytes of a Rocq
    [string].  A byte that does not start a well-formed UTF-8 sequence
    stands for the code point U+DC80..U+DCFF that Python's
    "surrogateescape" error handler gives it, so every byte string is the
    encoding of exactly one str without other lone surrogates. *)
Definition byte_val (c : ascii) : Z := Z.of_N (N_of_ascii c).

Definition byte_in (lo hi : Z) (c : ascii) : bool :=
  (lo <=? byte_val c) && (byte_val c <=? hi).

Definition cont (c : ascii) : Z := byte_val c - 128.

Definition surrogate_escape (n : Z) : Z := 56320 + n.

(** The admissible second byte after a lead byte (Unicode, table 3-7):
    no overlong forms, no surrogates, nothing above U+10FFFF. *)
Definition second_lo (n : Z) : Z :=
  if n =? 224 then 160 else if n =? 240 then 144 else 128.
Definition second_hi (n : Z) : Z :=
  if n =? 237 then 159 else if n =? 244 then 143 else 191.

(** [bytes.decode("utf-8", "surrogateescape")] *)
Fixpoint utf8_decode (s : string) : list Z :=
  match s with
  | EmptyString => []
  | String c r =>
      let n := byte_val c in
      if n <? 128 then n :: utf8_decode r
      else if (194 <=? n) && (n <=? 223) then
        match r with
        | String c1 r1 =>
            if byte_in 128 191 c1 then ((n - 192) * 64 + cont c1) :: utf8_decode r1
            else surrogate_escape n :: utf8_decode r
        | _ => surrogate_escape n :: utf8_decode r
        end
      else if (224 <=? n) && (n <=? 239) then
        match r with
        | String c1 (String c2 r2) =>
            if byte_in (second_lo n) (second_hi n) c1 && byte_in 128 191 c2
            then ((n - 224) * 4096 + cont c1 * 64 + cont c2) :: utf8_decode r2
            else surrogate_escape n :: utf8_decode r
        | _ => surrogate_escape n :: utf8_decode r
        end
      else if (240 <=? n) && (n <=? 244) then
        match r with
        | String c1 (String c2 (String c3 r3)) =>
            if byte_in (second_lo n) (second_hi n) c1 && byte_in 128 191 c2
               && byte_in 128 191 c3
            then ((n - 240) * 262144 + cont c1 * 4096 + cont c2 * 64 + cont c3)
                   :: utf8_decode r3
            else surrogate_escape n :: utf8_decode r
        | _ => surrogate_escape n :: utf8_decode r
        end
      else surrogate_escape n :: utf8_decode r
  end.

Definition byte (z : Z) : string := String (ascii_of_N (Z.to_N z)) EmptyString.

(** [str.encode("utf-8", "surrogateescape")] of one code point; the
    escapes U+DC80..U+DCFF become their byte again. *)
Definition utf8_encode_cp (cp : Z) : string :=
  if cp <? 128 then byte cp
  else if cp <? 2048 then byte (192 + cp / 64) ++ byte (128 + cp mod 64)
  else if (56448 <=? cp) && (cp <=? 56575) then byte (cp - 56320)
  else if cp <? 65536 then
    byte (224 + cp / 4096) ++ byte (128 + (cp / 64) mod 64) ++ byte (128 + cp mod 64)
  else
    byte (240 + cp / 262144) ++ byte (128 + (cp / 4096) mod 64)
      ++ byte (128 + (cp / 64) mod 64) ++ byte (128 + cp mod 64).

Fixpoint utf8_encode (cps : list Z) : string :=
  match cps with
  | [] => EmptyString
  | cp :: r => utf8_encode_cp cp ++ utf8_encode r
  end.

(** The upper-case mapping of [str.upper], code point by code point, as
    CPython 3.11 has it (Unicode 14.0).  A run [(lo, hi, step, d)] maps
    every [step]-th code point from [lo] to [hi] to itself plus [d]; the
    special entries map one code point to several ("ß" to "SS"). *)
Definition upper_runs : list (Z * Z * Z * Z) := [
  (97, 122, 1, (-32)); (181, 181, 1, 743); (224, 246, 1, (-32));
  (248, 254, 1, (-32)); (255, 255, 1, 121); (257, 303, 2, (-1));
  (305, 305, 1, (-232)); (307, 311, 2, (-1)); (314, 328, 2, (-1));
  (331, 375, 2, (-1)); (378, 382, 2, (-1)); (383, 383, 1, (-300));
  (384, 384, 1, 195); (387, 389, 2, (-1)); (392, 392, 1, (-1));
  (396, 396, 1, (-1)); (402, 402, 1, (-1)); (405, 405, 1, 97);
  (409, 409, 1, (-1)); (410, 410, 1, 163); (414, 414, 1, 130);
  (417, 421, 2, (-1)); (424, 424, 1, (-1)); (429, 429, 1, (-1));
  (432, 432, 1, (-1)); (436, 438, 2, (-1)); (441, 441, 1, (-1));
  (445, 445, 1, (-1)); (447, 447, 1, 56); (453, 453, 1, (-1));
  (454, 454, 1, (-2)); (456, 456, 1, (-1)); (457, 457, 1, (-2));
  (459, 459, 1, (-1)); (460, 460, 1, (-2)); (462, 476, 2, (-1));
  (477, 477, 1, (-79)); (479, 495, 2, (-1)); (498, 498, 1, (-1));
  (499, 499, 1, (-2)); (501, 501, 1, (-1)); (505, 543, 2, (-1));
  (547, 563, 2, (-1)); (572, 572, 1, (-1)); (575, 576, 1, 10815);
  (578, 578, 1, (-1)); (583, 591, 2, (-1)); (592, 592, 1, 10783);
  (593, 593, 1, 10780); (594, 594, 1, 10782); (595, 595, 1, (-210));
  (596, 596, 1, (-206)); (598, 599, 1, (-205)); (601, 601, 1, (-202));
  (603, 603, 1, (-203)); (604, 604, 1, 42319); (608, 608, 1, (-205));
  (609, 609, 1, 42315); (611, 611, 1, (-207)); (613, 613, 1, 42280);
  (614, 614, 1, 42308); (616, 616, 1, (-209)); (617, 617, 1, (-211));
  (618, 618, 1, 42308); (619, 619, 1, 10743); (620, 620, 1, 42305);
  (623, 623, 1, (-211)); (625, 625, 1, 10749); (626, 626, 1, (-213));
  (629, 629, 1, (-214)); (637, 637, 1, 10727); (640, 640, 1, (-218));
  (642, 642, 1, 42307); (643, 643, 1, (-218)); (647, 647, 1, 42282);
  (648, 648, 1, (-218)); (649, 649, 1, (-69)); (650, 651, 1, (-217));
  (652, 652, 1, (-71)); (658, 658, 1, (-219)); (669, 669, 1, 42261);
  (670, 670, 1, 42258); (837, 837, 1, 84); (881, 883, 2, (-1));
  (887, 887, 1, (-1)); (891, 893, 1, 130); (940, 940, 1, (-38));
  (941, 943, 1, (-37)); (945, 961, 1, (-32)); (962, 962, 1, (-31));
  (963, 971, 1, (-32)); (972, 972, 1, (-64)); (973, 974, 1, (-63));
  (976, 976, 1, (-62)); (977, 977, 1, (-57)); (981, 981, 1, (-47));
  (982, 982, 1, (-54)); (983, 983, 1, (-8)); (985, 1007, 2, (-1));
  (1008, 1008, 1, (-86)); (1009, 1009, 1, (-80)); (1010, 1010, 1, 7);
  (1011, 1011, 1, (-116)); (1013, 1013, 1, (-96)); (1016, 1016, 1, (-1));
  (1019, 1019, 1, (-1)); (1072, 1103, 1, (-32)); (1104, 1119, 1, (-80));
  (1121, 1153, 2, (-1)); (1163, 1215, 2, (-1)); (1218, 1230, 2, (-1));
  (1231, 1231, 1, (-15)); (1233, 1327, 2, (-1)); (1377, 1414, 1, (-48));
  (4304, 4346, 1, 3008); (4349, 4351, 1, 3008); (5112, 5117, 1, (-8));
  (7296, 7296, 1, (-6254)); (7297, 7297, 1, (-6253));
  (7298, 7298, 1, (-6244)); (7299, 7300, 1, (-6242));
  (7301, 7301, 1, (-6243)); (7302, 7302, 1, (-6236));
  (7303, 7303, 1, (-6181)); (7304, 7304, 1, 35266); (7545, 7545, 1, 35332);
  (7549, 7549, 1, 3814); (7566, 7566, 1, 35384); (7681, 7829, 2, (-1));
  (7835, 7835, 1, (-59)); (7841, 7935, 2, (-1)); (7936, 7943, 1, 8);
  (7952, 7957, 1, 8); (7968, 7975, 1, 8); (7984, 7991, 1, 8);
  (8000, 8005, 1, 8); (8017, 8023, 2, 8); (8032, 8039, 1, 8);
  (8048, 8049, 1, 74); (8050, 8053, 1, 86); (8054, 8055, 1, 100);
  (8056, 8057, 1, 128); (8058, 8059, 1, 112); (8060, 8061, 1, 126);
  (8112, 8113, 1, 8); (8126, 8126, 1, (-7205)); (8144, 8145, 1, 8);
  (8160, 8161, 1, 8); (8165, 8165, 1, 7); (8526, 8526, 1, (-28));
  (8560, 8575, 1, (-16)); (8580, 8580, 1, (-1)); (9424, 9449, 1, (-26));
  (11312, 11359, 1, (-48)); (11361, 11361, 1, (-1));
  (11365, 11365, 1, (-10795)); (11366, 11366, 1, (-10792));
  (11368, 11372, 2, (-1)); (11379, 11379, 1, (-1)); (11382, 11382, 1, (-1));
  (11393, 11491, 2, (-1)); (11500, 11502, 2, (-1)); (11507, 11507, 1, (-1));
  (11520, 11557, 1, (-7264)); (11559, 11559, 1, (-7264));
  (11565, 11565, 1, (-7264)); (42561, 42605, 2, (-1));
  (42625, 42651, 2, (-1)); (42787, 42799, 2, (-1)); (42803, 42863, 2, (-1));
  (42874, 42876, 2, (-1)); (42879, 42887, 2, (-1)); (42892, 42892, 1, (-1));
  (42897, 42899, 2, (-1)); (42900, 42900, 1, 48); (42903, 42921, 2, (-1));
  (42933, 42947, 2, (-1)); (42952, 42954, 2, (-1)); (42961, 42961, 1, (-1));
  (42967, 42969, 2, (-1)); (42998, 42998, 1, (-1));
  (43859, 43859, 1, (-928)); (43888, 43967, 1, (-38864));
  (65345, 65370, 1, (-32)); (66600, 66639, 1, (-40));
  (66776, 66811, 1, (-40)); (66967, 66977, 1, (-39));
  (66979, 66993, 1, (-39)); (66995, 67001, 1, (-39));
  (67003, 67004, 1, (-39)); (68800, 68850, 1, (-64));
  (71872, 71903, 1, (-32)); (93792, 93823, 1, (-32));
  (125218, 125251, 1, (-34))
]%Z.

Definition upper_special : list (Z * list Z) := [
  (223, [83; 83]); (329, [700; 78]); (496, [74; 780]);
  (912, [921; 776; 769]); (944, [933; 776; 769]); (1415, [1333; 1362]);
  (7830, [72; 817]); (7831, [84; 776]); (7832, [87; 778]); (7833, [89; 778]);
  (7834, [65; 702]); (8016, [933; 787]); (8018, [933; 787; 768]);
  (8020, [933; 787; 769]); (8022, [933; 787; 834]); (8064, [7944; 921]);
  (8065, [7945; 921]); (8066, [7946; 921]); (8067, [7947; 921]);
  (8068, [7948; 921]); (8069, [7949; 921]); (8070, [7950; 921]);
  (8071, [7951; 921]); (8072, [7944; 921]); (8073, [7945; 921]);
  (8074, [7946; 921]); (8075, [7947; 921]); (8076, [7948; 921]);
  (8077, [7949; 921]); (8078, [7950; 921]); (8079, [7951; 921]);
  (8080, [7976; 921]); (8081, [7977; 921]); (8082, [7978; 921]);
  (8083, [7979; 921]); (8084, [7980; 921]); (8085, [7981; 921]);
  (8086, [7982; 921]); (8087, [7983; 921]); (8088, [7976; 921]);
  (8089, [7977; 921]); (8090, [7978; 921]); (8091, [7979; 921]);
  (8092, [7980; 921]); (8093, [7981; 921]); (8094, [7982; 921]);
  (8095, [7983; 921]); (8096, [8040; 921]); (8097, [8041; 921]);
  (8098, [8042; 921]); (8099, [8043; 921]); (8100, [8044; 921]);
  (8101, [8045; 921]); (8102, [8046; 921]); (8103, [8047; 921]);
  (8104, [8040; 921]); (8105, [8041; 921]); (8106, [8042; 921]);
  (8107, [8043; 921]); (8108, [8044; 921]); (8109, [8045; 921]);
  (8110, [8046; 921]); (8111, [8047; 921]); (8114, [8122; 921]);
  (8115, [913; 921]); (8116, [902; 921]); (8118, [913; 834]);
  (8119, [913; 834; 921]); (8124, [913; 921]); (8130, [8138; 921]);
  (8131, [919; 921]); (8132, [905; 921]); (8134, [919; 834]);
  (8135, [919; 834; 921]); (8140, [919; 921]); (8146, [921; 776; 768]);
  (8147, [921; 776; 769]); (8150, [921; 834]); (8151, [921; 776; 834]);
  (8162, [933; 776; 768]); (8163, [933; 776; 769]); (8164, [929; 787]);
  (8166, [933; 834]); (8167, [933; 776; 834]); (8178, [8186; 921]);
  (8179, [937; 921]); (8180, [911; 921]); (8182, [937; 834]);
  (8183, [937; 834; 921]); (8188, [937; 921]); (64256, [70; 70]);
  (64257, [70; 73]); (64258, [70; 76]); (64259, [70; 70; 73]);
  (64260, [70; 70; 76]); (64261, [83; 84]); (64262, [83; 84]);
  (64275, [1348; 1350]); (64276, [1348; 1333]); (64277, [1348; 1339]);
  (64278, [1358; 1350]); (64279, [1348; 1341])
]%Z.

Definition cp_upper (cp : Z) : list Z :=
  match find (fun e => fst e =? cp) upper_special with
  | Some (_, u) => u
  | None =>
      match find (fun '(lo, hi, st, _) =>
                    (lo <=? cp) && (cp <=? hi) && ((cp - lo) mod st =? 0))
                 upper_runs with
      | Some (_, _, _, d) => [cp + d]
      | None => [cp]
      end
  end%Z.

(** [str.upper]: Python maps each code point on its own. *)
Definition upper (s : string) : string :=
  utf8_encode (flat_map cp_upper (utf8_decode s)).

End Text.

(** [k in s] for Python strings: [k] occurs at some offset of [s]. *)
Fixpoint str_in (k s : string) : bool :=
  match s with
  | EmptyString => prefix k s
  | String _ s' => prefix k s || str_in k s'
  end.

(* ================================================================= *)
(** ** [categorize_for_resident] (app.py, lines 21-48) *)

Definition property_keywords : list string :=
  [ "THEFT"; "BURGLARY"; "ROBBERY"; "MOTOR VEHICLE THEFT";
    "CRIMINAL DAMAGE"; "DECEPTIVE PRACTICE"; "ARSON" ].

Definition violent_keywords : list string :=
  [ "BATTERY"; "ASSAULT"; "HOMICIDE"; "KIDNAPPING";
    "CRIM SEXUAL ASSAULT"; "SEX OFFENSE" ].

Definition public_safety_keywords : list string :=
  [ "PUBLIC PEACE VIOLATION"; "INTERFERENCE WITH PUBLIC OFFICER";
    "WEAPONS VIOLATION"; "HUMAN TRAFFICKING"; "PROSTITUTION";
    "GAMBLING"; "NARCOTICS"; "OTHER NARCOTIC VIOLATION";
    "LIQUOR LAW VIOLATION"; "OBSCENITY" ].

Definition categorize_for_resident (crime_type : PyVal) : string :=
  match crime_type with
  | PyStr s =>
      let c := upper s in
      if existsb (fun k => str_in k c) property_keywords then "Property Crime"
      else if existsb (fun k => str_in k c) violent_keywords then "Violent Crime"
      else if existsb (fun k => str_in k c) public_safety_keywords
           then "Public Safety / Nuisance"
      else "Other / Uncategorized"
  | _ => "Other / Uncategorized"
  end.

Definition resident_buckets : list string :=
  [ "Property Crime"; "Violent Crime"; "Public Safety / Nuisance";
    "Other / Uncategorized" ].

Example categorize_theft :
  categorize_for_resident (PyStr "Motor Vehicle Theft") = "Property Crime".
Proof. reflexivity. Qed.
Example categorize_battery :
  categorize_for_resident (PyStr "BATTERY") = "Violent Crime".
Proof. reflexivity. Qed.
Example categorize_narcotics :
  categorize_for_resident (PyStr "narcotics") = "Public Safety / Nuisance".
Proof. reflexivity. Qed.
Example categorize_other :
  categorize_for_resident (PyStr "STALKING") = "Other / Uncategorized".
Proof. reflexivity. Qed.

(* ================================================================= *)
(** ** Timestamps *)

(** A parsed [datetime64] value: the day (days since 1970-01-01) and the
    second within that day. *)
Record Timestamp : Type := mkTimestamp { ts_day : Z; ts_sec : Z }.

(** [Series.dt.day_name()]; 1970-01-01 was a Thursday. *)
Definition day_name (d : Z) : string :=
  match Z.modulo d 7 with
  | 0%Z => "Thursday" | 1%Z => "Friday" | 2%Z => "Saturday"
  | 3%Z => "Sunday" | 4%Z => "Monday" | 5%Z => "Tuesday"
  | _ => "Wednesday"
  end.

(* ================================================================= *)
(** ** Exceptions *)

(** The exceptions that can reach the [except] of [load_data], each with
    what [str(e)] prints. *)
Inductive Exn : Type :=
| RequestException (msg : string)    (* connection error, timeout *)
| HTTPError (msg : string)           (* raise_for_status *)
| JSONDecodeError (msg : string)     (* resp.json() *)
| KeyError (key : string)            (* df[...] on a missing column *)
| TypeError (msg : string)
| OverflowError (msg : string)
| NotImplementedError.

Definition Exc (A : Type) : Type := (Exn + A)%type.
Definition ret {A} (a : A) : Exc A := inr a.
Definition raise {A} (e : Exn) : Exc A := inl e.
Definition bind {A B} (m : Exc A) (f : A -> Exc B) : Exc B :=
  match m with inl e => inl e | inr a => f a end.
Notation "x <- m ;; k" := (bind m (fun x => k))
  (at level 61, m at next level, right associativity).

Fixpoint mapM {A B} (f : A -> Exc B) (l : list A) : Exc (list B) :=
  match l with
  | [] => ret []
  | a :: l' => b <- f a ;; bs <- mapM f l' ;; ret (b :: bs)
  end.

(* ================================================================= *)
(** ** Decimal text *)

Definition digit_val (c : ascii) : option Z :=
  let n := nat_of_ascii c in
  if (48 <=? n)%nat && (n <=? 57)%nat then Some (Z.of_nat (n - 48)) else None.

(** Leading decimal digits of [s]: their value, their count, the rest. *)
Fixpoint take_digits (s : string) (acc : Z) (k : nat) : Z * nat * string :=
  match s with
  | String c s' =>
      match digit_val c with
      | Some d => take_digits s' (acc * 10 + d) (S k)
      | None => (acc, k, s)
      end
  | EmptyString => (acc, k, s)
  end.

(** [str] of an int64 ([astype(str)] of an [Int64] cell). *)
Fixpoint digits_str (fuel : nat) (n : Z) (acc : string) : string :=
  match fuel with
  | O => acc
  | S f =>
      let acc' := String (ascii_of_nat (48 + Z.to_nat (Z.modulo n 10))) acc in
      if (n <? 10)%Z then acc' else digits_str f (Z.div n 10) acc'
  end.

Definition z_to_str (z : Z) : string :=
  if (z <? 0)%Z then String "-"%char (digits_str 20 (Z.opp z) "")
  else digits_str 20 z "".

(** [str.isspace] on ASCII characters: tab to carriage return, the four
    separators 0x1c-0x1f and the space. *)
Definition py_space (c : ascii) : bool :=
  let n := nat_of_ascii c in
  ((9 <=? n) && (n <=? 13))%nat || ((28 <=? n) && (n <=? 32))%nat.

Fixpoint lstrip (s : string) : string :=
  match s with
  | String c s' => if py_space c then lstrip s' else s
  | EmptyString => s
  end.

Fixpoint rstrip (s : string) : string :=
  match s with
  | EmptyString => EmptyString
  | String c s' =>
      match rstrip s' with
      | EmptyString => if py_space c then EmptyString else String c EmptyString
      | r => String c r
      end
  end.

(** Decimal digits, single underscores allowed between two digits. *)
Fixpoint int_digits (s : string) (acc : Z) (after_digit : bool) : option Z :=
  match s with
  | EmptyString => if after_digit then Some acc else None
  | String c s' =>
      match digit_val c with
      | Some d => int_digits s' (acc * 10 + d) true
      | None =>
          if Ascii.eqb c "_"%char && after_digit then int_digits s' acc false
          else None
      end
  end.

(** [int(s)] on a string ([None]: [ValueError]): blanks around an
    optionally signed run of digits.  Text is ASCII here; [int] also reads
    non-ASCII digits and blanks. *)
Definition py_int (s : string) : option Z :=
  match rstrip (lstrip s) with
  | String "-"%char r => option_map Z.opp (int_digits r 0 false)
  | String "+"%char r => int_digits r 0 false
  | t => int_digits t 0 false
  end.

(* ================================================================= *)
(** ** float64 and int64 *)

(** A float64 value: a finite one (its exact value as a rational), an
    infinity or NaN. *)
Inductive Dbl : Type :=
| Fin (q : Q)
| PInf
| NInf
| DNaN.

Definition int64_min : Z := (- 2 ^ 63)%Z.
Definition int64_max : Z := (2 ^ 63 - 1)%Z.
Definition uint64_max : Z := (2 ^ 64 - 1)%Z.

(** [float(z)] of a Python int: [z] rounded to 53 significant bits, ties
    to even, and [OverflowError] beyond the largest float64. *)
Definition int_to_double (z : Z) : Exc Dbl :=
  let a := Z.abs z in
  if (a <? 2 ^ 53)%Z then ret (Fin (inject_Z z)) else
  let s := (Z.log2 a - 52)%Z in
  let q := Z.shiftr a s in
  let r := (a - Z.shiftl q s)%Z in
  let half := Z.shiftl 1 (s - 1) in
  let m := if (half <? r)%Z || ((r =? half)%Z && Z.odd q) then (q + 1)%Z else q in
  let v := Z.shiftl m s in
  if (2 ^ 1024 <=? v)%Z then raise (OverflowError "int too large to convert to float")
  else ret (Fin (inject_Z (Z.sgn z * v))).

(* ================================================================= *)
(** ** [pd.to_numeric(..., errors="coerce")] and [.astype("Int64")] *)

(** What pandas' [maybe_convert_numeric] records for one object cell: a
    missing value, a bool, an integer (with its float64 value) or a float. *)
Inductive NumCell : Type :=
| CNull
| CBool (b : bool)
| CInt (z : Z) (f : Dbl)
| CFloat (f : Dbl).

(** The converted column: int64 (or bool, or uint64) when every cell is an
    integer in range, float64 otherwise. *)
Inductive NumCol : Type :=
| IntCol (zs : list Z)
| FloatCol (fs : list Dbl).

(** A cell that makes the column float64: a missing or unreadable value,
    a float, or an integer outside [int64_min, uint64_max]. *)
Definition forces_float (c : NumCell) : bool :=
  match c with
  | CNull | CFloat _ => true
  | CInt z _ => (z <? int64_min)%Z || (uint64_max <? z)%Z
  | CBool _ => false
  end.

Definition is_uint (c : NumCell) : bool :=
  match c with CInt z _ => (int64_max <? z)%Z | _ => false end.

Definition is_sint (c : NumCell) : bool :=
  match c with CInt z _ => (z <? 0)%Z | _ => false end.

(** Float64 also when integers beyond int64 meet negative ones. *)
Definition float_mode (cs : list NumCell) : bool :=
  existsb forces_float cs || (existsb is_uint cs && existsb is_sint cs).

Definition float_value (c : NumCell) : Dbl :=
  match c with
  | CNull => DNaN
  | CBool b => Fin (if b then 1%Q else 0%Q)
  | CInt _ f | CFloat f => f
  end.

Definition int_value (c : NumCell) : Z :=
  match c with
  | CBool b => if b then 1%Z else 0%Z
  | CInt z _ => z
  | _ => 0%Z
  end.

Definition col_values (c : NumCol) : list Dbl :=
  match c with
  | IntCol zs => map (fun z => Fin (inject_Z z)) zs
  | FloatCol fs => fs
  end.

Definition cast_error (dtype : string) : Exn :=
  TypeError ("cannot safely cast non-equivalent " ++ dtype ++ " to int64").

(** One float64 cell of [.astype("Int64")]: NaN becomes [<NA>]; the cast
    raises unless the value is a whole number within int64. *)
Definition float_to_Int64 (f : Dbl) : Exc (option Z) :=
  match f with
  | DNaN => ret None
  | Fin q =>
      let z := (Qnum q / Zpos (Qden q))%Z in
      if (Z.rem (Qnum q) (Zpos (Qden q)) =? 0)%Z && (int64_min <=? z)%Z
         && (z <=? int64_max)%Z
      then ret (Some z) else raise (cast_error "float64")
  | PInf | NInf => raise (cast_error "float64")
  end.

(** [.astype("Int64")] of a converted column; a uint64 column holds a
    value beyond int64 and cannot be cast. *)
Definition astype_Int64 (c : NumCol) : Exc (list (option Z)) :=
  match c with
  | IntCol zs =>
      if existsb (fun z => int64_max <? z)%Z zs then raise (cast_error "uint64")
      else ret (map Some zs)
  | FloatCol fs => mapM float_to_Int64 fs
  end.

(* ================================================================= *)
(** ** [load_data] (app.py, lines 53-107) *)

Definition API_URL : string :=
  "https://data.cityofchicago.org/resource/ijzp-q8t2.json".

(** A flat JSON record of the Socrata response. *)
Definition Record_ := list (string * PyVal).

(** The decoded JSON payload: the API answers with an array of records;
    an error object or a bare scalar is also valid JSON. *)
Inductive Json : Type :=
| JArr (rs : list Record_)
| JObj (r : Record_)
| JScalar (v : PyVal).

(** The answer of [requests.get]: its status code, reason phrase and
    final URL, and what [resp.json()] makes of its body: the payload, or
    the message of the [JSONDecodeError] it raises (for instance
    "Expecting value: line 1 column 1 (char 0)"). *)
Record Response : Type := mkResponse {
  status_code : Z;
  reason : string;
  url : string;
  body : string + Json
}.

(** [resp.raise_for_status()] of requests. *)
Definition raise_for_status (resp : Response) : Exc unit :=
  let sc := status_code resp in
  if (400 <=? sc)%Z && (sc <? 500)%Z then
    raise (HTTPError (z_to_str sc ++ " Client Error: " ++ reason resp
                      ++ " for url: " ++ url resp))
  else if (500 <=? sc)%Z && (sc <? 600)%Z then
    raise (HTTPError (z_to_str sc ++ " Server Error: " ++ reason resp
                      ++ " for url: " ++ url resp))
  else ret tt.

(** [pd.json_normalize]: one row per record; the columns are the union of
    the keys, and a record lacking a key holds NaN in that column.  A
    scalar is neither a dict nor a list of dicts. *)
Definition json_normalize (j : Json) : Exc (list Record_) :=
  match j with
  | JArr rs => ret rs
  | JObj r => ret [r]
  | JScalar _ => raise NotImplementedError
  end.

Definition has_key (c : string) (r : Record_) : bool :=
  existsb (fun kv => String.eqb (fst kv) c) r.

Definition has_col (rs : list Record_) (c : string) : bool :=
  existsb (has_key c) rs.

Definition cell (r : Record_) (c : string) : PyVal :=
  match find (fun kv => String.eqb (fst kv) c) r with
  | Some kv => snd kv
  | None => PyNaN
  end.

(** [df.empty]: no rows or no columns. *)
Definition frame_empty (rs : list Record_) : bool :=
  match rs with
  | [] => true
  | _ => negb (existsb (fun r => negb (match r with [] => true | _ => false end)) rs)
  end.

(** A row of the working set. *)
Record Incident : Type := mkIncident {
  occurred_at : Timestamp;               (* column "date" *)
  date_only : Z;
  hour : Z;
  weekday : string;
  primary_description : PyVal;
  domestic : PyVal;
  latitude : Dbl;                        (* int64 columns as whole floats *)
  longitude : Dbl;
  community_area : option Z;             (* Int64, NA as None *)
  resident_category : string
}.

(** The row built from a kept record, its timestamp, its coordinates and
    its area (lines 86-101); [pcol] is the type column after the rename. *)
Definition mk_row (pcol : string)
    (x : Record_ * Timestamp * Dbl * Dbl * option Z) : Incident :=
  let '((((r, t), lat), lon), a) := x in
  mkIncident t (ts_day t) (Z.div (ts_sec t) 3600) (day_name (ts_day t))
    (cell r pcol) (cell r "domestic") lat lon a
    (categorize_for_resident (cell r pcol)).

(** [str(e)], as the f-string of line 106 prints it; the [str] of a
    [KeyError] is the [repr] of its key. *)
Definition exn_message (e : Exn) : string :=
  match e with
  | RequestException m | HTTPError m | JSONDecodeError m
  | TypeError m | OverflowError m => m
  | KeyError c => "'" ++ c ++ "'"
  | NotImplementedError => ""
  end.

Section Loader.

(** [pd.to_datetime(..., errors="coerce")] on one cell; [None] is NaT.
    The parser is pandas' own and is left as a parameter. *)
Variable to_datetime : PyVal -> option Timestamp.

(** pandas' C routine [floatify], which [to_numeric] applies to a text
    cell: the float64 it reads, and whether the text had the form of an
    integer (no decimal point, no exponent); [None] when the text is not
    a number.  It is pandas' own parser and is left as a parameter. *)
Variable floatify : string -> option (Dbl * bool).

(** One object cell, as [maybe_convert_numeric] sees it under
    [errors="coerce"]: an integer-looking text is read by [int()], whose
    [ValueError] coerces it to NaN; converting a huge Python int to float
    raises [OverflowError], which [errors="coerce"] does not catch. *)
Definition num_cell (v : PyVal) : Exc NumCell :=
  match v with
  | PyNone | PyNaN => ret CNull
  | PyBool b => ret (CBool b)
  | PyInt z => f <- int_to_double z ;; ret (CInt z f)
  | PyStr EmptyString => ret CNull
  | PyStr s =>
      match floatify s with
      | None => ret CNull
      | Some (DNaN, _) => ret CNull
      | Some (f, true) =>
          ret (match py_int s with Some z => CInt z f | None => CNull end)
      | Some (f, false) => ret (CFloat f)
      end
  end.

(** [pd.to_numeric(col, errors="coerce")] on an object column. *)
Definition to_numeric (vs : list PyVal) : Exc NumCol :=
  cs <- mapM num_cell vs ;;
  ret (if float_mode cs then FloatCol (map float_value cs)
       else IntCol (map int_value cs)).

(** The rows kept by [df.dropna(subset=["date"])], each with its parsed
    timestamp. *)
Fixpoint dropna_date (rs : list Record_) : list (Record_ * Timestamp) :=
  match rs with
  | [] => []
  | r :: rs' =>
      match to_datetime (cell r "date") with
      | Some t => (r, t) :: dropna_date rs'
      | None => dropna_date rs'
      end
  end.

Definition column (kept : list (Record_ * Timestamp)) (c : string) : list PyVal :=
  map (fun rt => cell (fst rt) c) kept.

(** [df[c] = pd.to_numeric(df.get(c), errors="coerce")] for the
    coordinates: [df.get] of a missing column is [None], whose conversion
    is a NaN scalar that fills the column. *)
Definition numeric_col (rs : list Record_) (kept : list (Record_ * Timestamp))
    (c : string) : Exc (list Dbl) :=
  if has_col rs c then (col <- to_numeric (column kept c) ;; ret (col_values col))
  else ret (repeat DNaN (length kept)).

(** Lines 83-103, run on a non-empty frame. *)
Definition process (rs : list Record_) : Exc (list Incident) :=
  if negb (has_col rs "date") then raise (KeyError "date") else
  let kept := dropna_date rs in
  (* after the rename, the column read on line 101 *)
  let pcol := if has_col rs "primary_type" then "primary_type"
              else "primary_description" in
  lats <- numeric_col rs kept "latitude" ;;
  lons <- numeric_col rs kept "longitude" ;;
  areas <-
    (if has_col rs "community_area"
     then (col <- to_numeric (column kept "community_area") ;; astype_Int64 col)
     (* pd.to_numeric(None) is a numpy float scalar, whose astype does
        not know the pandas dtype "Int64" *)
     else raise (TypeError "data type 'Int64' not understood")) ;;
  if negb (has_col rs pcol) then raise (KeyError "primary_description") else
  ret (map (mk_row pcol) (combine (combine (combine kept lats) lons) areas)).

(** The body of the [try]: the outcome of [requests.get] (an exception
    for a connection failure or the 60 s timeout) and what follows. *)
Definition load_body (get : Exc Response) : Exc (list Incident) :=
  resp <- get ;;
  _ok <- raise_for_status resp ;;
  raw <- (match body resp with inr j => ret j | inl m => raise (JSONDecodeError m) end) ;;
  rs <- json_normalize raw ;;
  if frame_empty rs then ret [] else process rs.

(** [load_data]: the returned frame and the messages shown by [st.error]. *)
Definition load_data (get : Exc Response) : list Incident * list string :=
  match load_body get with
  | inr df => (df, [])
  | inl e => ([], ["Failed to load data: " ++ exn_message e])
  end.

End Loader.

(* ================================================================= *)
(** ** Filter logic (app.py, lines 169-179) *)

(** Python's [cell == True] / [cell == False] on an object column
    ([1 == True] holds in Python; NaN equals nothing). *)
Definition py_eq_bool (v : PyVal) (b : bool) : bool :=
  match v with
  | PyBool b' => Bool.eqb b' b
  | PyInt z => (z =? (if b then 1 else 0))%Z
  | _ => false
  end.

(** [Series.isin(selected_cats)]. *)
Definition py_isin (v : PyVal) (l : list string) : bool :=
  match v with
  | PyStr s => existsb (String.eqb s) l
  | _ => false
  end.

Definition mask_row (start_date end_date : Z) (selected_cats : list string)
    (domestic_filter : string) (i : Incident) : bool :=
  let m := (start_date <=? date_only i)%Z && (date_only i <=? end_date)%Z in
  let m := if String.eqb domestic_filter "Domestic only"
           then m && py_eq_bool (domestic i) true
           else if String.eqb domestic_filter "Non-domestic only"
           then m && py_eq_bool (domestic i) false
           else m in
  match selected_cats with
  | [] => m
  | _ :: _ => m && py_isin (primary_description i) selected_cats
  end.

(** [filtered_df = df.loc[mask].copy()]. *)
Definition filtered_df (start_date end_date : Z) (selected_cats : list string)
    (domestic_filter : string) (df : list Incident) : list Incident :=
  filter (mask_row start_date end_date selected_cats domestic_filter) df.

(* ================================================================= *)
(** ** [groupby(...).size()] *)

(** Add one row with key [k] to a size table kept in ascending key order
    (pandas sorts group keys). *)
Fixpoint bump {K} (cmp : K -> K -> comparison) (k : K) (l : list (K * nat))
  : list (K * nat) :=
  match l with
  | [] => [(k, 1%nat)]
  | (k', n) :: l' =>
      match cmp k k' with
      | Lt => (k, 1%nat) :: l
      | Eq => (k', S n) :: l'
      | Gt => (k', n) :: bump cmp k l'
      end
  end.

Definition group_size {K} (cmp : K -> K -> comparison) (ks : list K)
  : list (K * nat) :=
  fold_left (fun acc k => bump cmp k acc) ks [].

(* ================================================================= *)
(** ** Daily trend (app.py, lines 206-207) *)

(** [daily = filtered_df.groupby("date_only").size()...sort_values("date_only")];
    the groups already come out in ascending date order. *)
Definition daily (df : list Incident) : list (Z * nat) :=
  group_size Z.compare (map date_only df).

Definition sumQ (l : list nat) : Q :=
  fold_right (fun n acc => inject_Z (Z.of_nat n) + acc) 0 l.

(** [Series.rolling(window, min_periods).mean()]: row [i] averages rows
    [max 0 (i+1-window) .. i]; fewer than [min_periods] rows give NaN
    ([None]). *)
Definition rolling_mean (window min_periods : nat) (xs : list nat)
  : list (option Q) :=
  map (fun i =>
         let win := skipn (S i - window) (firstn (S i) xs) in
         if (length win <? min_periods)%nat then None
         else Some (sumQ win / inject_Z (Z.of_nat (length win))))
      (seq 0 (length xs)).

(** [daily["rolling_incidents"]]. *)
Definition rolling_incidents (df : list Incident) : list (option Q) :=
  rolling_mean 7 1 (map snd (daily df)).

Example rolling_small :
  rolling_mean 2 1 [2; 4; 6]%nat = [Some (2 # 1); Some (6 # 2); Some (10 # 2)].
Proof. reflexivity. Qed.

(* ================================================================= *)
(** ** Type-by-area drilldown (app.py, lines 238-274) *)

Definition key_cmp (a b : string * Z) : comparison :=
  match String.compare (fst a) (fst b) with
  | Eq => Z.compare (snd a) (snd b)
  | c => c
  end.

(** The group keys of [groupby(["primary_description", "community_area"])]:
    a row whose type or area is missing is dropped ([dropna=True]).  The
    API's [primary_type] is a JSON string whenever it is present. *)
Definition chart_keys (df : list Incident) : list (string * Z) :=
  flat_map (fun i =>
              match primary_description i, community_area i with
              | PyStr d, Some a => [(d, a)]
              | _, _ => []
              end) df.

(** [chart_data]: type, area as a string key, count. *)
Definition chart_data (df : list Incident) : list (string * string * nat) :=
  map (fun '((d, a), n) => (d, z_to_str a, n)) (group_size key_cmp (chart_keys df)).

(** Vega-Lite [transform_aggregate(total_count="sum(count)",
    groupby=["primary_description"])]: groups in order of first appearance. *)
Fixpoint add_total (t : string) (n : nat) (l : list (string * nat))
  : list (string * nat) :=
  match l with
  | [] => [(t, n)]
  | (t', m) :: l' =>
      if String.eqb t t' then (t', (m + n)%nat) :: l' else (t', m) :: add_total t n l'
  end.

Definition aggregate_sum (rows : list (string * string * nat)) : list (string * nat) :=
  fold_left (fun acc '(d, _, n) => add_total d n acc) rows [].

Definition bar_totals (df : list Incident) : list (string * nat) :=
  aggregate_sum (chart_data df).

(** Vega's [rank] window op over [total_count] descending: peers share a
    rank and the next rank counts all rows before it, i.e. one more than
    the number of rows with a strictly larger total. *)
Definition rank_of (totals : list (string * nat)) (n : nat) : nat :=
  S (length (filter (fun tm => (n <? snd tm)%nat) totals)).

(** The bars drawn: [transform_filter(alt.datum.rank <= 20)]. *)
Definition bar_chart (df : list Incident) : list (string * nat) :=
  let totals := bar_totals df in
  filter (fun tm => (rank_of totals (snd tm) <=? 20)%nat) totals.

(** The total of type [t] in an aggregate ([0] when [t] has no bar). *)
Definition total_of (t : string) (l : list (string * nat)) : nat :=
  fold_right (fun tm acc => if String.eqb (fst tm) t then (snd tm + acc)%nat else acc) 0%nat l.

(** Filtered incidents of type [t] with a known community area. *)
Definition count_known_area (t : string) (df : list Incident) : nat :=
  length (filter (fun i =>
                    match primary_description i, community_area i with
                    | PyStr d, Some _ => String.eqb d t
                    | _, _ => false
                    end) df).

(* ================================================================= *)
(** ** Sidebar inputs (app.py, lines 134-157) *)

(** [df["date_only"].min()] / [.max()]; the page stops on an empty frame
    before reading them (lines 130-132). *)
Definition min_date (df : list Incident) : option Z :=
  match map date_only df with
  | [] => None
  | d :: ds => Some (fold_left Z.min ds d)
  end.

Definition max_date (df : list Incident) : option Z :=
  match map date_only df with
  | [] => None
  | d :: ds => Some (fold_left Z.max ds d)
  end.

(** Insert [s] into an ascending list of distinct strings. *)
Fixpoint insert_unique (s : string) (l : list string) : list string :=
  match l with
  | [] => [s]
  | s' :: l' =>
      match String.compare s s' with
      | Lt => s :: l
      | Eq => l
      | Gt => s' :: insert_unique s l'
      end
  end.

(** [sorted(df["primary_description"].dropna().unique())]: the options of
    the crime-type multiselect. *)
Definition all_cats (df : list Incident) : list string :=
  fold_left (fun acc i =>
               match primary_description i with
               | PyStr d => insert_unique d acc
               | _ => acc
               end) df [].

(* ================================================================= *)
(** ** Map half of the drilldown (app.py, lines 279-311) *)

(** The click selection on [primary_description]: [None] when nothing is
    selected, and Vega's [transform_filter(selection)] then keeps every
    row (an empty point selection passes all data). *)
Definition selected (sel : option string) (d : string) : bool :=
  match sel with
  | None => true
  | Some t => String.eqb d t
  end.

(** [transform_aggregate(crime_count="sum(count)", groupby=["community_area"])]
    after the selection filter. *)
Definition area_counts (sel : option string) (rows : list (string * string * nat))
  : list (string * nat) :=
  fold_left (fun acc '(_, a, n) => add_total a n acc)
    (filter (fun '(d, _, _) => selected sel d) rows) [].

(** A boundary feature: [properties.area_num_1] and [properties.community]. *)
Record Feature : Type := mkFeature { area_num_1 : string; community : string }.

(** [transform_lookup(lookup="community_area", ...)]: Vega indexes the
    secondary data by key, a later feature overriding an earlier one. *)
Definition lookup_feature (feats : list Feature) (a : string) : option Feature :=
  find (fun f => String.eqb (area_num_1 f) a) (rev feats).

(** [isValid(datum.crime_count) ? datum.crime_count : 0]. *)
Definition fill_count (c : option nat) : nat :=
  match c with Some n => n | None => 0%nat end.

(** The rows of the map: area key, joined feature, [crime_count_filled].
    The aggregate always sets [crime_count], so it is passed as [Some]. *)
Definition map_rows (sel : option string) (feats : list Feature)
    (rows : list (string * string * nat)) : list (string * option Feature * nat) :=
  map (fun an => (fst an, lookup_feature feats (fst an), fill_count (Some (snd an))))
    (area_counts sel rows).

(* ================================================================= *)
(** ** Heatmap (app.py, lines 333-334) *)

Definition weekday_order : list string :=
  [ "Monday"; "Tuesday"; "Wednesday"; "Thursday"; "Friday"; "Saturday"; "Sunday" ].

(** [hourly = filtered_df.groupby(["weekday", "hour"]).size()]; weekday and
    hour are never missing in the working set. *)
Definition hourly (df : list Incident) : list ((string * Z) * nat) :=
  group_size key_cmp (map (fun i => (weekday i, hour i)) df).

(* ================================================================= *)
(** ** Sample rows *)

Definition sample_incident (day : Z) (ptype : string) (dom : PyVal)
    (area : option Z) : Incident :=
  mkIncident (mkTimestamp day 0) day 0 (day_name day) (PyStr ptype) dom
    DNaN DNaN area (categorize_for_resident (PyStr ptype)).

Definition sample_week : list Incident :=
  flat_map (fun '(day, n) => repeat (sample_incident day "BATTERY" (PyBool false) (Some 8%Z)) n)
    [(20000%Z, 4%nat); (20001%Z, 10%nat); (20002%Z, 4%nat); (20003%Z, 10%nat);
     (20004%Z, 4%nat); (20005%Z, 10%nat); (20006%Z, 4%nat)].

(** Twenty-one crime types with one incident each, all in area 1. *)
Definition tie21 : list Incident :=
  map (fun k => sample_incident 20000 (String (ascii_of_nat (65 + k)) EmptyString)
                  (PyBool false) (Some 1%Z))
      (seq 0 21).

(** API records whose areas are written "25", "25.0" and "8", and one
    without an area. *)
Definition area_payload : Json :=
  JArr [ [("id", PyStr "1"); ("date", PyStr "2025-03-10T14:00:00");
          ("primary_type", PyStr "THEFT"); ("domestic", PyBool false);
          ("community_area", PyStr "25")];
         [("id", PyStr "2"); ("date", PyStr "2025-03-10T14:00:00");
          ("primary_type", PyStr "THEFT"); ("domestic", PyBool false);
          ("community_area", PyStr "25.0")];
         [("id", PyStr "3"); ("date", PyStr "2025-03-10T14:00:00");
          ("primary_type", PyStr "BATTERY"); ("domestic", PyBool true);
          ("community_area", PyStr "8")];
         [("id", PyStr "4"); ("date", PyStr "2025-03-10T14:00:00");
          ("primary_type", PyStr "BATTERY"); ("domestic", PyBool false)] ].

(** A stand-in for pandas' parser that reads one ISO timestamp. *)
Definition sample_to_datetime (v : PyVal) : option Timestamp :=
  match v with
  | PyStr s => if String.eqb s "2025-03-10T14:00:00"
               then Some (mkTimestamp 20157 50400) else None
  | _ => None
  end.

(** Decimal literals [[+-]ddd[.ddd]], read exactly. *)
Definition parse_decimal (s : string) : option Q :=
  let '(neg, body) :=
    match s with
    | String "-"%char r => (true, r)
    | String "+"%char r => (false, r)
    | _ => (false, s)
    end in
  let '(n1, k1, rest) := take_digits body 0 0 in
  let signed z := if neg then Z.opp z else z in
  match rest with
  | EmptyString =>
      if (0 <? k1)%nat then Some (inject_Z (signed n1)) else None
  | String "."%char r =>
      let '(n2, k2, rest2) := take_digits r n1 0 in
      match rest2 with
      | EmptyString =>
          if (0 <? k1 + k2)%nat
          then Some (inject_Z (signed n2) / inject_Z (10 ^ Z.of_nat k2))
          else None
      | _ => None
      end
  | _ => None
  end.

(** A stand-in for pandas' [floatify] on the short decimal literals of
    the samples, whose values float64 holds exactly. *)
Definition sample_floatify (s : string) : option (Dbl * bool) :=
  match parse_decimal s with
  | Some q => Some (Fin q, negb (str_in "." s))
  | None => None
  end.

(** The URL [requests] builds from [API_URL] and the query parameters of
    lines 63-67 on a run at 2026-10-16 09:00 (one year back: 2025-10-16). *)
Definition request_url : string :=
  API_URL ++ "?%24limit=300000&%24order=date+DESC&%24where=date+%3E%3D+%272025-10-16T09%3A00%3A00%27".

(** A response of the API carrying [j]. *)
Definition ok_response (j : Json) : Response := mkResponse 200 "OK" request_url (inr j).

(* ================================================================= *)
(** * Properties *)

(* ----------------------------------------------------------------- *)
(** ** Categorizer *)

Lemma byte_val_range : forall c, (0 <= byte_val c < 256)%Z.
Proof. intro c. unfold byte_val. pose proof (N_ascii_bounded c). lia. Qed.

Lemma byte_in_high : forall lo hi c,
  byte_in lo hi c = true -> (128 <= lo)%Z -> (128 <= byte_val c)%Z.
Proof.
  intros lo hi c H Hlo. unfold byte_in in H.
  apply andb_true_iff in H as [H _]. apply Z.leb_le in H. lia.
Qed.

Lemma second_lo_ge : forall n, (128 <= second_lo n)%Z.
Proof.
  intro n. unfold second_lo.
  destruct (n =? 224)%Z; [lia|]. destruct (n =? 240)%Z; lia.
Qed.

(** [r'] is [r] with some leading bytes of value 128 or more removed. *)
Inductive high_suffix : string -> string -> Prop :=
| hs_refl r : high_suffix r r
| hs_cons r b t : (128 <= byte_val b)%Z -> high_suffix r t -> high_suffix r (String b t).

Lemma decode_ascii : forall c r,
  (byte_val c < 128)%Z -> utf8_decode (String c r) = byte_val c :: utf8_decode r.
Proof.
  intros c r H. cbn [utf8_decode]. rewrite (proj2 (Z.ltb_lt _ _) H). reflexivity.
Qed.

(** Decoding takes one code point off the front of a non-empty text and
    goes on after it; only non-ASCII bytes are consumed with the first. *)
Lemma decode_step : forall c r, exists cp r',
  utf8_decode (String c r) = cp :: utf8_decode r' /\ high_suffix r' r.
Proof.
  intros c r. cbn [utf8_decode].
  destruct r as [|c1 [|c2 [|c3 r3]]]; cbv beta iota;
    repeat match goal with |- context [if ?b then _ else _] => destruct b eqn:? end;
    repeat match goal with H : _ && _ = true |- _ => apply andb_true_iff in H as [? ?] end;
    eexists _, _; split; try reflexivity;
    repeat first [ apply hs_refl
                 | apply hs_cons;
                   [ eapply byte_in_high; [eassumption|]; first [apply second_lo_ge | lia]
                   | ] ].
Qed.

Lemma high_suffix_length : forall r' r,
  high_suffix r' r -> (String.length r' <= String.length r)%nat.
Proof. intros r' r H. induction H; simpl; lia. Qed.

Lemma str_in_high_suffix : forall a k r' r,
  (byte_val a < 128)%Z -> high_suffix r' r ->
  str_in (String a k) r = true -> str_in (String a k) r' = true.
Proof.
  intros a k r' r Ha H. induction H as [|r b t Hb H IH]; intro Hin; [exact Hin|].
  apply IH. simpl in Hin. apply orb_true_iff in Hin as [Hp|Ht]; [|exact Ht].
  destruct (ascii_dec a b) as [->|]; [lia | discriminate].
Qed.

Lemma str_in_app_r : forall k p t, str_in k t = true -> str_in k (p ++ t) = true.
Proof.
  intros k p t H. induction p as [|b p IH]; simpl; [exact H|].
  rewrite IH. apply orb_true_r.
Qed.

Lemma prefix_str_in : forall k s, prefix k s = true -> str_in k s = true.
Proof. intros k [|c s] H; [exact H | cbn [str_in]; rewrite H; reflexivity]. Qed.

Lemma str_app_assoc : forall a b c : string, (a ++ b) ++ c = a ++ (b ++ c).
Proof. induction a as [|x a IH]; intros; simpl; [reflexivity | rewrite IH; reflexivity]. Qed.

Lemma str_app_nil : forall a : string, a ++ EmptyString = a.
Proof. induction a as [|x a IH]; simpl; [reflexivity | rewrite IH; reflexivity]. Qed.

Lemma utf8_encode_app : forall l1 l2,
  utf8_encode (l1 ++ l2) = utf8_encode l1 ++ utf8_encode l2.
Proof.
  induction l1 as [|x l1 IH]; intro l2; simpl; [reflexivity|].
  rewrite IH, str_app_assoc. reflexivity.
Qed.

Lemma upper_step : forall c r cp r',
  utf8_decode (String c r) = cp :: utf8_decode r' ->
  upper (String c r) = utf8_encode (cp_upper cp) ++ upper r'.
Proof.
  intros c r cp r' H. unfold upper. rewrite H. simpl. apply utf8_encode_app.
Qed.

(** An ASCII character that [str.upper] leaves alone. *)
Definition upper_fixed (a : ascii) : bool :=
  (byte_val a <? 128)%Z &&
  match cp_upper (byte_val a) with [m] => (m =? byte_val a)%Z | _ => false end.

Fixpoint all_fixed (k : string) : bool :=
  match k with
  | EmptyString => true
  | String a k' => upper_fixed a && all_fixed k'
  end.

Lemma upper_fixed_cons : forall a r,
  upper_fixed a = true -> upper (String a r) = String a (upper r).
Proof.
  intros a r H. unfold upper_fixed in H. apply andb_true_iff in H as [Ha Hm].
  apply Z.ltb_lt in Ha.
  rewrite (upper_step a r (byte_val a) r (decode_ascii a r Ha)).
  destruct (cp_upper (byte_val a)) as [|m [|m' l]]; try discriminate.
  apply Z.eqb_eq in Hm. subst m. simpl. rewrite str_app_nil.
  unfold utf8_encode_cp. rewrite (proj2 (Z.ltb_lt _ _) Ha).
  unfold byte, byte_val. rewrite N2Z.id, ascii_N_embedding. reflexivity.
Qed.

Lemma prefix_upper : forall k s,
  all_fixed k = true -> prefix k s = true -> prefix k (upper s) = true.
Proof.
  induction k as [|a k IH]; intros s Hk H; [destruct (upper s); reflexivity|].
  destruct s as [|b s]; simpl in H; [discriminate|].
  destruct (ascii_dec a b) as [<-|]; [|discriminate].
  simpl in Hk. apply andb_true_iff in Hk as [Ha Hk].
  rewrite (upper_fixed_cons a s Ha). simpl.
  destruct (ascii_dec a a) as [_|n]; [apply IH; assumption | congruence].
Qed.

(** A keyword whose characters [str.upper] fixes, found in a text, is
    found in the upper-cased text. *)
Lemma str_in_upper : forall k s,
  all_fixed k = true -> str_in k s = true -> str_in k (upper s) = true.
Proof.
  intros [|a k] s Hk H; [destruct (upper s); reflexivity|].
  assert (Ha : (byte_val a < 128)%Z).
  { simpl in Hk. apply andb_true_iff in Hk as [Ha _].
    unfold upper_fixed in Ha. apply andb_true_iff in Ha as [Ha _]. apply Z.ltb_lt, Ha. }
  remember (String.length s) as n eqn:En.
  assert (Hn : (String.length s <= n)%nat) by lia. clear En.
  revert s Hn H. induction n as [|n IHn]; intros s Hn H.
  - destruct s; [discriminate | simpl in Hn; lia].
  - destruct s as [|c r]; [discriminate|].
    simpl in H. apply orb_true_iff in H as [Hp|Hr].
    + apply prefix_str_in, prefix_upper; [exact Hk|].
      exact Hp.
    + destruct (decode_step c r) as (cp & r' & Hd & Hs).
      rewrite (upper_step c r cp r' Hd). apply str_in_app_r.
      apply IHn.
      * pose proof (high_suffix_length _ _ Hs). simpl in Hn. lia.
      * exact (str_in_high_suffix a k r' r Ha Hs Hr).
Qed.

Lemma property_keywords_fixed : Forall (fun k => all_fixed k = true) property_keywords.
Proof. repeat constructor. Qed.

Lemma categorize_cases : forall v,
  categorize_for_resident v = "Property Crime"
  \/ categorize_for_resident v = "Violent Crime"
  \/ categorize_for_resident v = "Public Safety / Nuisance"
  \/ categorize_for_resident v = "Other / Uncategorized".
Proof.
  intros [s| | | |]; unfold categorize_for_resident; auto.
  repeat match goal with
         | |- context [if ?b then _ else _] => destruct b
         end; auto.
Qed.

(** Claim C1: when the offense text contains a property keyword and a
    violent keyword, the categorizer answers "Property Crime": the
    property list is checked first and the first matching list wins. *)
Theorem categorize_property_before_violent : forall s kp kv,
  In kp property_keywords -> str_in kp s = true ->
  In kv violent_keywords -> str_in kv s = true ->
  categorize_for_resident (PyStr s) = "Property Crime".
Proof.
  intros s kp kv Hkp Hp _ _. unfold categorize_for_resident; cbv zeta.
  assert (Hx : existsb (fun k => str_in k (upper s)) property_keywords = true).
  { apply existsb_exists. exists kp. split; [exact Hkp|].
    apply str_in_upper; [|exact Hp].
    pose proof property_keywords_fixed as Hf. rewrite Forall_forall in Hf.
    exact (Hf kp Hkp). }
  rewrite Hx. reflexivity.
Qed.

Lemma categorize_property_before_violent_witness :
  categorize_for_resident (PyStr "VEHICULAR HOMICIDE / THEFT") = "Property Crime".
Proof.
  apply (categorize_property_before_violent _ "THEFT" "HOMICIDE");
    [simpl; auto | reflexivity | simpl; auto | reflexivity].
Defined.

(** Claim C9: the categorizer is total; a non-string cell gives
    "Other / Uncategorized", so does a string matching none of the three
    keyword lists, and every answer is one of the four buckets. *)
Theorem categorize_total_buckets : forall v,
  In (categorize_for_resident v) resident_buckets /\
  ((forall s, v <> PyStr s) -> categorize_for_resident v = "Other / Uncategorized") /\
  (forall s, v = PyStr s ->
     existsb (fun k => str_in k (upper s))
       (property_keywords ++ violent_keywords ++ public_safety_keywords) = false ->
     categorize_for_resident v = "Other / Uncategorized").
Proof.
  intro v. split; [|split].
  - destruct (categorize_cases v) as [H|[H|[H|H]]]; rewrite H; simpl; tauto.
  - destruct v as [s| | | |]; intro Hns; try reflexivity.
    exfalso. exact (Hns s eq_refl).
  - intros s -> Hnone. rewrite !existsb_app in Hnone.
    apply orb_false_iff in Hnone as [H1 H23].
    apply orb_false_iff in H23 as [H2 H3].
    unfold categorize_for_resident; cbv zeta. rewrite H1, H2, H3. reflexivity.
Qed.

Lemma categorize_total_buckets_witness :
  categorize_for_resident PyNaN = "Other / Uncategorized" /\
  categorize_for_resident (PyStr "stalking") = "Other / Uncategorized".
Proof.
  split.
  - apply (proj1 (proj2 (categorize_total_buckets PyNaN))). discriminate.
  - apply (proj2 (proj2 (categorize_total_buckets (PyStr "stalking"))) "stalking");
      reflexivity.
Defined.

(* ----------------------------------------------------------------- *)
(** ** Filter engine *)

Lemma in_filtered_df : forall s e sel dom df i,
  In i (filtered_df s e sel dom df) <->
  In i df /\ mask_row s e sel dom i = true.
Proof. intros. unfold filtered_df. apply filter_In. Qed.

(** Claim C6: a row whose domestic status is unknown (NaN or None) is
    dropped by both the "Domestic only" and the "Non-domestic only"
    filter, whatever its date and type; the rows these filters keep are
    those whose [domestic] cell equals [True] (resp. [False]). *)
Theorem domestic_filter_excludes_unknown : forall s e sel df i,
  (domestic i = PyNaN \/ domestic i = PyNone) ->
  ~ In i (filtered_df s e sel "Domestic only" df) /\
  ~ In i (filtered_df s e sel "Non-domestic only" df) /\
  (forall j, In j (filtered_df s e sel "Domestic only" df) ->
     In j df /\ py_eq_bool (domestic j) true = true) /\
  (forall j, In j (filtered_df s e sel "Non-domestic only" df) ->
     In j df /\ py_eq_bool (domestic j) false = true).
Proof.
  intros s e sel df i Hunk.
  assert (Hdom : forall b, py_eq_bool (domestic i) b = false)
    by (destruct Hunk as [H|H]; rewrite H; reflexivity).
  split; [|split; [|split]].
  - rewrite in_filtered_df. intros [_ Hm]. unfold mask_row in Hm.
    simpl in Hm. rewrite Hdom, andb_false_r in Hm.
    destruct sel; simpl in Hm; discriminate.
  - rewrite in_filtered_df. intros [_ Hm]. unfold mask_row in Hm.
    simpl in Hm. rewrite Hdom, andb_false_r in Hm.
    destruct sel; simpl in Hm; discriminate.
  - intros j Hj. apply in_filtered_df in Hj as [Hj Hm]. split; [exact Hj|].
    unfold mask_row in Hm. simpl in Hm.
    destruct sel; [|apply andb_true_iff in Hm as [Hm _]];
    apply andb_true_iff in Hm as [_ Hm]; exact Hm.
  - intros j Hj. apply in_filtered_df in Hj as [Hj Hm]. split; [exact Hj|].
    unfold mask_row in Hm. simpl in Hm.
    destruct sel; [|apply andb_true_iff in Hm as [Hm _]];
    apply andb_true_iff in Hm as [_ Hm]; exact Hm.
Qed.

(** Claim C8: with no crime type selected, the filter is the date-range
    predicate and the domestic predicate alone. *)
Theorem empty_selection_no_type_restriction : forall s e dom df,
  filtered_df s e [] dom df =
  filter (fun i =>
            (s <=? date_only i)%Z && (date_only i <=? e)%Z &&
            (if String.eqb dom "Domestic only" then py_eq_bool (domestic i) true
             else if String.eqb dom "Non-domestic only"
             then py_eq_bool (domestic i) false
             else true)) df.
Proof.
  intros s e dom df. unfold filtered_df. apply filter_ext. intro i.
  unfold mask_row.
  destruct (String.eqb dom "Domestic only"); [reflexivity|].
  destruct (String.eqb dom "Non-domestic only"); [reflexivity|].
  rewrite andb_true_r. reflexivity.
Qed.

Lemma domestic_filter_excludes_unknown_witness :
  ~ In (sample_incident 20000 "THEFT" PyNaN (Some 25%Z))
       (filtered_df 19000 21000 [] "Domestic only"
          [sample_incident 20000 "THEFT" PyNaN (Some 25%Z)]) /\
  ~ In (sample_incident 20000 "THEFT" PyNaN (Some 25%Z))
       (filtered_df 19000 21000 [] "Non-domestic only"
          [sample_incident 20000 "THEFT" PyNaN (Some 25%Z)]).
Proof.
  destruct (domestic_filter_excludes_unknown 19000 21000 []
              [sample_incident 20000 "THEFT" PyNaN (Some 25%Z)]
              (sample_incident 20000 "THEFT" PyNaN (Some 25%Z))
              (or_introl eq_refl)) as [H1 [H2 _]].
  split; [exact H1 | exact H2].
Defined.

(* ----------------------------------------------------------------- *)
(** ** Group sizes and the daily trend *)

Section GroupSize.
Context {K : Type} (cmp : K -> K -> comparison).
Hypothesis cmp_eq : forall a b, cmp a b = Eq -> a = b.

Lemma bump_weight : forall (w : K -> nat) k l,
  list_sum (map (fun kn => (w (fst kn) * snd kn)%nat) (bump cmp k l))
  = (w k + list_sum (map (fun kn => (w (fst kn) * snd kn)%nat) l))%nat.
Proof.
  intros w k l. induction l as [|[k' n] l IH]; simpl; [lia|].
  destruct (cmp k k') eqn:E; simpl.
  - apply cmp_eq in E. subst k'. lia.
  - lia.
  - rewrite IH. lia.
Qed.

Lemma group_size_weight_acc : forall (w : K -> nat) ks acc,
  list_sum (map (fun kn => (w (fst kn) * snd kn)%nat)
             (fold_left (fun acc k => bump cmp k acc) ks acc))
  = (list_sum (map w ks) + list_sum (map (fun kn => (w (fst kn) * snd kn)%nat) acc))%nat.
Proof.
  intros w ks. induction ks as [|k ks IH]; intro acc; simpl; [reflexivity|].
  rewrite IH, bump_weight. lia.
Qed.

(** Weighted by [w], the sizes add up to the weight of the keys. *)
Lemma group_size_weight : forall (w : K -> nat) ks,
  list_sum (map (fun kn => (w (fst kn) * snd kn)%nat) (group_size cmp ks))
  = list_sum (map w ks).
Proof.
  intros. unfold group_size. rewrite group_size_weight_acc. simpl. lia.
Qed.

Lemma bump_keys : forall k l x,
  In x (map fst (bump cmp k l)) <-> k = x \/ In x (map fst l).
Proof.
  intros k l x. induction l as [|[k' n] l IH]; simpl; [tauto|].
  destruct (cmp k k') eqn:E; simpl.
  - apply cmp_eq in E. subst k'. tauto.
  - tauto.
  - rewrite IH. tauto.
Qed.

Lemma group_size_keys : forall ks x,
  In x (map fst (group_size cmp ks)) <-> In x ks.
Proof.
  intros ks x. unfold group_size.
  assert (G : forall acc, In x (map fst (fold_left (fun acc k => bump cmp k acc) ks acc))
                          <-> In x ks \/ In x (map fst acc)).
  { induction ks as [|k ks IH]; intro acc; simpl; [tauto|].
    rewrite IH, bump_keys. tauto. }
  rewrite G. simpl. tauto.
Qed.

End GroupSize.

Lemma Zcompare_eq : forall a b : Z, Z.compare a b = Eq -> a = b.
Proof. intros a b. apply Z.compare_eq. Qed.

Definition key_lt (a b : Z * nat) : Prop := (fst a < fst b)%Z.

Lemma bump_hdrel : forall k a l,
  (fst a < k)%Z -> HdRel key_lt a l -> HdRel key_lt a (bump Z.compare k l).
Proof.
  intros k a l Hk H. destruct l as [|[k' n] l]; simpl.
  - constructor. exact Hk.
  - inversion H; subst.
    destruct (Z.compare k k'); constructor; unfold key_lt in *; simpl in *; lia.
Qed.

Lemma bump_sorted : forall k l,
  Sorted key_lt l -> Sorted key_lt (bump Z.compare k l).
Proof.
  intros k l. induction l as [|[k' n] l IH]; intro H; simpl.
  - repeat constructor.
  - inversion H as [|x y Hs Hhd]; subst.
    destruct (Z.compare k k') eqn:E.
    + apply Z.compare_eq in E. subst. constructor; [exact Hs|].
      destruct l as [|[k'' m] l]; constructor. inversion Hhd; auto.
    + apply Z.compare_lt_iff in E. constructor; [exact H|]. constructor. exact E.
    + apply Z.compare_gt_iff in E. constructor; [apply IH, Hs|].
      apply bump_hdrel; [exact E | exact Hhd].
Qed.

Lemma daily_sorted : forall df, Sorted key_lt (daily df).
Proof.
  intro df. unfold daily, group_size.
  assert (G : forall ks acc, Sorted key_lt acc ->
              Sorted key_lt (fold_left (fun acc k => bump Z.compare k acc) ks acc)).
  { induction ks as [|k ks IH]; intros acc H; simpl; [exact H|].
    apply IH, bump_sorted, H. }
  apply G. constructor.
Qed.

Lemma rolling_mean_defined : forall xs x,
  In x (rolling_mean 7 1 xs) -> x <> None.
Proof.
  intros xs x Hx. unfold rolling_mean in Hx.
  apply in_map_iff in Hx as [i [<- Hi]]. apply in_seq in Hi.
  rewrite length_skipn, length_firstn.
  destruct (Nat.ltb_spec (min (S i) (length xs) - (S i - 7)) 1); [lia|].
  discriminate.
Qed.

Lemma list_sum_ones {A} : forall l : list A,
  list_sum (map (fun _ => 1%nat) l) = length l.
Proof. induction l; simpl; lia. Qed.

(** Claim C2: the daily series has one row per occurrence date present,
    in strictly ascending date order, with sizes adding up to the number
    of filtered incidents; every rolling value is defined, and for the
    counts [4, 10, 4, 10, 4, 10, 4] the first rolling value is the first
    count and the seventh is the mean of all seven. *)
Theorem daily_trend_rolling_mean : forall df,
  Sorted key_lt (daily df) /\
  (forall d, In d (map fst (daily df)) <-> In d (map date_only df)) /\
  list_sum (map snd (daily df)) = length df /\
  (forall x, In x (rolling_incidents df) -> x <> None) /\
  (map snd (daily df) = [4; 10; 4; 10; 4; 10; 4]%nat ->
   exists q1 q7,
     nth_error (rolling_incidents df) 0 = Some (Some q1) /\ q1 == 4 /\
     nth_error (rolling_incidents df) 6 = Some (Some q7) /\
     q7 == (4 + 10 + 4 + 10 + 4 + 10 + 4) / 7).
Proof.
  intro df. split; [|split; [|split; [|split]]].
  - apply daily_sorted.
  - intro d. unfold daily. rewrite group_size_keys by exact Zcompare_eq. tauto.
  - unfold daily.
    pose proof (group_size_weight Z.compare Zcompare_eq (fun _ => 1%nat)
                  (map date_only df)) as G.
    rewrite list_sum_ones, length_map in G. rewrite <- G.
    f_equal. apply map_ext. intros [k n]. simpl. lia.
  - apply rolling_mean_defined.
  - intro H. unfold rolling_incidents. rewrite H.
    exists (4 # 1), (46 # 7). vm_compute. repeat split; reflexivity.
Qed.

Lemma daily_trend_rolling_mean_witness :
  map snd (daily sample_week) = [4; 10; 4; 10; 4; 10; 4]%nat /\
  exists q1 q7,
    nth_error (rolling_incidents sample_week) 0 = Some (Some q1) /\ q1 == 4 /\
    nth_error (rolling_incidents sample_week) 6 = Some (Some q7) /\
    q7 == (4 + 10 + 4 + 10 + 4 + 10 + 4) / 7.
Proof.
  assert (H : map snd (daily sample_week) = [4; 10; 4; 10; 4; 10; 4]%nat)
    by (vm_compute; reflexivity).
  split; [exact H|].
  exact (proj2 (proj2 (proj2 (proj2 (daily_trend_rolling_mean sample_week)))) H).
Defined.

(* ----------------------------------------------------------------- *)
(** ** Loader *)

Lemma mapM_Forall2 {A B} : forall (f : A -> Exc B) l bs,
  mapM f l = inr bs -> Forall2 (fun b a => f a = inr b) bs l.
Proof.
  intros f l. induction l as [|a l IH]; intros bs H; simpl in H.
  - inversion H. constructor.
  - destruct (f a) as [e|b] eqn:Ef; simpl in H; [discriminate|].
    destruct (mapM f l) as [e|bs'] eqn:E; simpl in H; [discriminate|].
    inversion H; subst. constructor; [exact Ef | apply IH; reflexivity].
Qed.

Lemma mapM_length {A B} : forall (f : A -> Exc B) l bs,
  mapM f l = inr bs -> length bs = length l.
Proof.
  intros f l bs H. apply mapM_Forall2 in H. apply (Forall2_length H).
Qed.

Lemma mapM_fails {A B} : forall (f : A -> Exc B) l x e,
  In x l -> f x = inl e -> exists e', mapM f l = inl e'.
Proof.
  intros f l x e. induction l as [|y l IH]; intros Hx Hf; simpl in *; [contradiction|].
  destruct Hx as [<-|Hx].
  - rewrite Hf. eexists. reflexivity.
  - destruct (f y); simpl; [eexists; reflexivity|].
    destruct (IH Hx Hf) as [e' ->]. eexists. reflexivity.
Qed.

Lemma Forall2_weaken {A B} (P Q : A -> B -> Prop) : forall l m,
  (forall a b, P a b -> Q a b) -> Forall2 P l m -> Forall2 Q l m.
Proof. intros l m H F. induction F; constructor; auto. Qed.

Lemma Forall2_and {A B} (P Q : A -> B -> Prop) : forall l m,
  Forall2 P l m -> Forall2 Q l m -> Forall2 (fun a b => P a b /\ Q a b) l m.
Proof.
  intros l m F. induction F as [|a b l m Hab F IH]; intro G; inversion G; subst;
    constructor; auto.
Qed.

Lemma Forall2_in_l {A B} (P : A -> B -> Prop) : forall l m,
  Forall2 P l m -> Forall2 (fun a b => P a b /\ In a l) l m.
Proof.
  intros l m F. induction F as [|a b l m Hab F IH]; constructor.
  - split; [exact Hab | left; reflexivity].
  - eapply Forall2_weaken; [|exact IH]. intros x y [Hxy Hx]. split; [exact Hxy | right; exact Hx].
Qed.

Lemma Forall2_map_l {A A' B} (f : A -> A') (P : A' -> B -> Prop) : forall l m,
  Forall2 (fun a b => P (f a) b) l m -> Forall2 P (map f l) m.
Proof. intros l m F. induction F; constructor; auto. Qed.

Lemma Forall2_map_r {A B B'} (f : B -> B') (P : A -> B' -> Prop) : forall l m,
  Forall2 (fun a b => P a (f b)) l m -> Forall2 P l (map f m).
Proof. intros l m F. induction F; constructor; auto. Qed.

Lemma Forall2_map_r_inv {A B B'} (f : B -> B') (P : A -> B' -> Prop) : forall l m,
  Forall2 P l (map f m) -> Forall2 (fun a b => P a (f b)) l m.
Proof.
  intros l m. revert l. induction m as [|b m IH]; intros l F; inversion F; subst;
    constructor; auto.
Qed.

Lemma Forall2_compose {A B C} (P : A -> B -> Prop) (Q : B -> C -> Prop) : forall l m n,
  Forall2 P l m -> Forall2 Q m n -> Forall2 (fun a c => exists b, P a b /\ Q b c) l n.
Proof.
  intros l m n F. revert n. induction F as [|a b l m Hab F IH]; intros n G;
    inversion G; subst; constructor; eauto.
Qed.

Lemma Forall2_combine_fst {A B C} (P : A -> C -> Prop) : forall xs (ys : list B) zs,
  Forall2 P xs zs -> length ys = length xs ->
  Forall2 (fun x z => P (fst x) z) (combine xs ys) zs.
Proof.
  intros xs ys zs F. revert ys. induction F as [|a c xs zs Hac F IH]; intros ys Hl;
    destruct ys as [|y ys]; simpl in *; try discriminate; constructor; auto.
Qed.

Lemma Forall2_combine_snd {A B C} (P : B -> C -> Prop) : forall (xs : list A) ys zs,
  Forall2 P ys zs -> length xs = length ys ->
  Forall2 (fun x z => P (snd x) z) (combine xs ys) zs.
Proof.
  intros xs ys zs F. revert xs. induction F as [|b c ys zs Hbc F IH]; intros xs Hl;
    destruct xs as [|x xs]; simpl in *; try discriminate; constructor; auto.
Qed.

Lemma Forall2_refl {A} : forall l : list A, Forall2 (fun a b => a = b) l l.
Proof. induction l; constructor; auto. Qed.

(** The row tuples of [process] line up with the kept records and with
    the converted areas. *)
Lemma zip_rows {A B C D E} : forall (kept : list A) (lats : list B) (lons : list C)
    (areas : list D) (vs : list E) (P : D -> E -> Prop),
  length lats = length kept -> length lons = length kept -> length areas = length kept ->
  Forall2 P areas vs ->
  Forall2 (fun x v => P (snd x) v) (combine (combine (combine kept lats) lons) areas) vs.
Proof.
  intros kept lats lons areas vs P H1 H2 H3 F.
  apply Forall2_combine_snd; [exact F|].
  rewrite !length_combine; lia.
Qed.

Lemma zip_kept {A B C D} : forall (kept : list A) (lats : list B) (lons : list C)
    (areas : list D),
  length lats = length kept -> length lons = length kept -> length areas = length kept ->
  Forall2 (fun x rt => fst (fst (fst x)) = rt)
    (combine (combine (combine kept lats) lons) areas) kept.
Proof.
  intros kept lats lons areas H1 H2 H3.
  apply (Forall2_combine_fst (fun x rt => fst (fst x) = rt));
    [| rewrite !length_combine; lia].
  apply (Forall2_combine_fst (fun x rt => fst x = rt));
    [| rewrite !length_combine; lia].
  apply (Forall2_combine_fst (fun x rt => x = rt)); [apply Forall2_refl | congruence].
Qed.

Lemma int64_25 : (int64_min <= 25 <= int64_max)%Z.
Proof. unfold int64_min, int64_max. lia. Qed.

(** A float64 holding a whole number of the int64 range casts to it. *)
Lemma float_to_Int64_whole : forall q z,
  (q == inject_Z z)%Q -> (int64_min <= z <= int64_max)%Z ->
  float_to_Int64 (Fin q) = ret (Some z).
Proof.
  intros [n d] z Hq Hz. unfold Qeq in Hq. simpl in Hq. unfold float_to_Int64. simpl.
  rewrite Z.mul_1_r in Hq. subst n.
  rewrite Z.rem_mul by lia. rewrite Z.div_mul by lia.
  rewrite (proj2 (Z.leb_le int64_min z)), (proj2 (Z.leb_le z int64_max)) by lia.
  reflexivity.
Qed.

Lemma frame_empty_records : forall rs,
  frame_empty rs = true -> Forall (fun r => r = []) rs.
Proof.
  intros [|r rs] H; [constructor|].
  unfold frame_empty in H. apply negb_true_iff in H.
  apply Forall_forall. intros x Hx.
  destruct x as [|kv x]; [reflexivity|].
  exfalso. assert (E : existsb (fun r => negb match r with [] => true | _ => false end)
                         (r :: rs) = true)
    by (apply existsb_exists; exists (kv :: x); auto).
  congruence.
Qed.

Section LoaderProps.
Variable to_datetime : PyVal -> option Timestamp.
Variable floatify : string -> option (Dbl * bool).

Definition date_parses (r : Record_) : bool :=
  match to_datetime (cell r "date") with Some _ => true | None => false end.

Lemma load_data_catch : forall get e,
  load_body to_datetime floatify get = inl e ->
  load_data to_datetime floatify get = ([], ["Failed to load data: " ++ exn_message e]).
Proof. intros get e H. unfold load_data. rewrite H. reflexivity. Qed.

Lemma status_ok : forall resp,
  (status_code resp < 400 \/ 600 <= status_code resp)%Z -> raise_for_status resp = ret tt.
Proof.
  intros resp H. unfold raise_for_status.
  replace ((400 <=? status_code resp) && (status_code resp <? 500))%Z with false
    by (symmetry; apply andb_false_iff;
        destruct H; [left; apply Z.leb_gt | right; apply Z.ltb_ge]; lia).
  replace ((500 <=? status_code resp) && (status_code resp <? 600))%Z with false
    by (symmetry; apply andb_false_iff;
        destruct H; [left; apply Z.leb_gt | right; apply Z.ltb_ge]; lia).
  reflexivity.
Qed.

Lemma process_missing_date : forall rs,
  has_col rs "date" = false ->
  process to_datetime floatify rs = inl (KeyError "date").
Proof. intros rs H. unfold process. rewrite H. reflexivity. Qed.

Lemma process_missing_type : forall rs,
  has_col rs "primary_type" = false -> has_col rs "primary_description" = false ->
  exists e, process to_datetime floatify rs = inl e.
Proof.
  intros rs Hp Hd. unfold process.
  destruct (has_col rs "date"); simpl; [|eexists; reflexivity].
  rewrite Hp.
  destruct (numeric_col _ _ _ "latitude"); simpl; [eexists; reflexivity|].
  destruct (numeric_col _ _ _ "longitude"); simpl; [eexists; reflexivity|].
  destruct (if has_col rs "community_area" then _ else _); simpl;
    [eexists; reflexivity|].
  rewrite Hd. eexists; reflexivity.
Qed.

Lemma to_numeric_length : forall vs col,
  to_numeric floatify vs = inr col -> length (col_values col) = length vs.
Proof.
  intros vs col H. unfold to_numeric in H.
  destruct (mapM (num_cell floatify) vs) as [e|cs] eqn:E; simpl in H; [discriminate|].
  inversion H; subst. apply mapM_length in E.
  destruct (float_mode cs); simpl; rewrite !length_map; exact E.
Qed.

Lemma astype_length : forall col areas,
  astype_Int64 col = inr areas -> length areas = length (col_values col).
Proof.
  intros [zs|fs] areas H; simpl in *.
  - destruct (existsb _ zs); inversion H; subst. rewrite !length_map. reflexivity.
  - apply mapM_length in H. exact H.
Qed.

Lemma numeric_col_length : forall rs kept c xs,
  numeric_col floatify rs kept c = inr xs -> length xs = length kept.
Proof.
  intros rs kept c xs H. unfold numeric_col in H.
  destruct (has_col rs c).
  - destruct (to_numeric floatify (column kept c)) as [e|col] eqn:E; simpl in H;
      [discriminate|].
    inversion H; subst. rewrite (to_numeric_length _ _ E). unfold column.
    apply length_map.
  - inversion H; subst. apply repeat_length.
Qed.

(** What a successful [process] returns. *)
Lemma process_inr : forall rs df,
  process to_datetime floatify rs = inr df ->
  exists pcol lats lons col areas,
    let kept := dropna_date to_datetime rs in
    has_col rs "community_area" = true /\
    length lats = length kept /\ length lons = length kept /\
    to_numeric floatify (column kept "community_area") = inr col /\
    astype_Int64 col = inr areas /\ length areas = length kept /\
    df = map (mk_row pcol) (combine (combine (combine kept lats) lons) areas).
Proof.
  intros rs df H. unfold process in H.
  destruct (has_col rs "date"); simpl in H; [|discriminate].
  destruct (numeric_col _ _ _ "latitude") as [e|lats] eqn:E1; simpl in H; [discriminate|].
  destruct (numeric_col _ _ _ "longitude") as [e|lons] eqn:E2; simpl in H; [discriminate|].
  destruct (has_col rs "community_area") eqn:Ha; simpl in H; [|discriminate].
  destruct (to_numeric _ _) as [e|col] eqn:E3; simpl in H; [discriminate|].
  destruct (astype_Int64 col) as [e|areas] eqn:E4; simpl in H; [discriminate|].
  destruct (negb (has_col rs (if has_col rs "primary_type" then _ else _)));
    simpl in H; [discriminate|].
  inversion H; subst.
  exists (if has_col rs "primary_type" then "primary_type" else "primary_description"),
    lats, lons, col, areas.
  cbv zeta. repeat split; auto.
  - eapply numeric_col_length; eauto.
  - eapply numeric_col_length; eauto.
  - rewrite (astype_length _ _ E4), (to_numeric_length _ _ E3). unfold column.
    apply length_map.
Qed.

(** A successful load: the response, its records and what [process] made
    of them, or an empty frame. *)
Lemma load_data_inr : forall get df,
  load_body to_datetime floatify get = inr df ->
  exists resp j rs,
    get = inr resp /\ raise_for_status resp = ret tt /\ body resp = inr j /\
    json_normalize j = inr rs /\
    ((frame_empty rs = true /\ df = []) \/
     (frame_empty rs = false /\ process to_datetime floatify rs = inr df)).
Proof.
  intros get df H. unfold load_body in H.
  destruct get as [e|resp]; simpl in H; [discriminate|].
  destruct (raise_for_status resp) as [e|[]] eqn:Hs; simpl in H; [discriminate|].
  destruct (body resp) as [m|j] eqn:Hb; simpl in H; [discriminate|].
  destruct (json_normalize j) as [e|rs] eqn:Hj; simpl in H; [discriminate|].
  exists resp, j, rs. repeat split; auto.
  destruct (frame_empty rs); [left | right]; cbv [ret] in H; split; congruence.
Qed.

Lemma dropna_date_forall2 : forall rs,
  Forall2 (fun rt r => fst rt = r /\ to_datetime (cell r "date") = Some (snd rt))
    (dropna_date to_datetime rs) (filter date_parses rs).
Proof.
  intro rs. induction rs as [|r rs IH]; simpl; [constructor|].
  unfold date_parses at 1.
  destruct (to_datetime (cell r "date")) as [t|] eqn:E; [|exact IH].
  constructor; [split; [reflexivity | exact E] | exact IH].
Qed.

Lemma dropna_date_in : forall rs r t,
  In (r, t) (dropna_date to_datetime rs) -> In r rs /\ to_datetime (cell r "date") = Some t.
Proof.
  intros rs. induction rs as [|r0 rs IH]; intros r t H; simpl in *; [contradiction|].
  destruct (to_datetime (cell r0 "date")) as [t0|] eqn:E.
  - destruct H as [H|H].
    + inversion H; subst. auto.
    + apply IH in H. tauto.
  - apply IH in H. tauto.
Qed.

Lemma dropna_date_keep : forall rs r t,
  In r rs -> to_datetime (cell r "date") = Some t -> In (r, t) (dropna_date to_datetime rs).
Proof.
  intros rs. induction rs as [|r0 rs IH]; intros r t Hr Ht; simpl in *; [contradiction|].
  destruct Hr as [<-|Hr].
  - rewrite Ht. left. reflexivity.
  - destruct (to_datetime (cell r0 "date")); [right|]; apply IH; assumption.
Qed.

End LoaderProps.

(** Claim C3: [load_data] never lets an exception escape.  Whatever the
    body of its [try] raises, it answers with an empty frame and one
    [st.error] message "Failed to load data: " followed by [str(e)]: the
    transport error's own text, requests' "<status> Client Error: <reason>
    for url: <url>" or "Server Error" text for an HTTP error status, the
    JSON decoder's message for a body that is not JSON, and "'date'" for a
    payload without the "date" column; a payload without the offense-type
    column also yields no rows and one message. *)
Theorem load_data_failure_degrades : forall to_datetime floatify,
  (forall get e, load_body to_datetime floatify get = inl e ->
     load_data to_datetime floatify get
     = ([], ["Failed to load data: " ++ exn_message e])) /\
  (forall m, load_data to_datetime floatify (raise (RequestException m))
             = ([], ["Failed to load data: " ++ m])) /\
  (forall st rsn u b, (400 <= st < 500)%Z ->
     load_data to_datetime floatify (ret (mkResponse st rsn u b))
     = ([], ["Failed to load data: " ++ z_to_str st ++ " Client Error: " ++ rsn
             ++ " for url: " ++ u])) /\
  (forall st rsn u b, (500 <= st < 600)%Z ->
     load_data to_datetime floatify (ret (mkResponse st rsn u b))
     = ([], ["Failed to load data: " ++ z_to_str st ++ " Server Error: " ++ rsn
             ++ " for url: " ++ u])) /\
  (forall st rsn u m, (st < 400 \/ 600 <= st)%Z ->
     load_data to_datetime floatify (ret (mkResponse st rsn u (inl m)))
     = ([], ["Failed to load data: " ++ m])) /\
  (forall st rsn u rs, (st < 400 \/ 600 <= st)%Z -> frame_empty rs = false ->
     has_col rs "date" = false ->
     load_data to_datetime floatify (ret (mkResponse st rsn u (inr (JArr rs))))
     = ([], ["Failed to load data: 'date'"])) /\
  (forall st rsn u rs, (st < 400 \/ 600 <= st)%Z -> frame_empty rs = false ->
     has_col rs "primary_type" = false -> has_col rs "primary_description" = false ->
     exists e,
       load_data to_datetime floatify (ret (mkResponse st rsn u (inr (JArr rs))))
       = ([], ["Failed to load data: " ++ exn_message e])).
Proof.
  intros td fl. split; [|split; [|split; [|split; [|split; [|split]]]]].
  - apply load_data_catch.
  - intro m. reflexivity.
  - intros st rsn u b Hst. unfold load_data, load_body, raise_for_status. simpl.
    replace ((400 <=? st) && (st <? 500))%Z with true
      by (symmetry; apply andb_true_iff; split; [apply Z.leb_le | apply Z.ltb_lt]; lia).
    reflexivity.
  - intros st rsn u b Hst. unfold load_data, load_body, raise_for_status. simpl.
    replace ((400 <=? st) && (st <? 500))%Z with false
      by (symmetry; apply andb_false_iff; right; apply Z.ltb_ge; lia).
    replace ((500 <=? st) && (st <? 600))%Z with true
      by (symmetry; apply andb_true_iff; split; [apply Z.leb_le | apply Z.ltb_lt]; lia).
    reflexivity.
  - intros st rsn u m Hst. unfold load_data, load_body. simpl.
    rewrite (status_ok (mkResponse st rsn u (inl m)) Hst). reflexivity.
  - intros st rsn u rs Hst Hne Hd. unfold load_data, load_body. simpl.
    rewrite (status_ok (mkResponse st rsn u (inr (JArr rs))) Hst). simpl. rewrite Hne.
    rewrite (process_missing_date td fl rs Hd). reflexivity.
  - intros st rsn u rs Hst Hne Hp Hd.
    destruct (process_missing_type td fl rs Hp Hd) as [e He].
    exists e. unfold load_data, load_body. simpl.
    rewrite (status_ok (mkResponse st rsn u (inr (JArr rs))) Hst). simpl.
    rewrite Hne, He. reflexivity.
Qed.

(** Claim C7: every row of the working set carries the timestamp parsed
    from its record's "date" cell: either the load yields no rows, or its
    rows are, in order, exactly the records of the payload whose date
    parses, each with that parsed value. *)
Theorem load_data_dates_parsed : forall to_datetime floatify get,
  fst (load_data to_datetime floatify get) = [] \/
  exists resp j rs,
    get = inr resp /\ body resp = inr j /\ json_normalize j = inr rs /\
    Forall2 (fun i r => to_datetime (cell r "date") = Some (occurred_at i))
      (fst (load_data to_datetime floatify get))
      (filter (fun r => match to_datetime (cell r "date") with
                        | Some _ => true | None => false end) rs).
Proof.
  intros td fl get. unfold load_data.
  destruct (load_body td fl get) as [e|df] eqn:Hl; [left; reflexivity|].
  destruct (load_data_inr td fl get df Hl)
    as (resp & j & rs & -> & _ & Hb & Hj & [[_ ->] | [_ Hp]]); [left; reflexivity|].
  right. exists resp, j, rs. split; [reflexivity|]. split; [exact Hb|]. split; [exact Hj|].
  destruct (process_inr td fl rs df Hp)
    as (pcol & lats & lons & col & areas & _ & H1 & H2 & _ & _ & H3 & ->).
  apply Forall2_map_l.
  eapply Forall2_weaken; [|apply (Forall2_compose _ _ _ _ _
                                  (zip_kept _ lats lons areas H1 H2 H3)
                                  (dropna_date_forall2 td rs))].
  intros [[[[r t] lat] lon] a] r' [rt [Hx [Hr Ht]]]. simpl in *. subst rt r'.
  exact Ht.
Qed.

(* ----------------------------------------------------------------- *)
(** ** Type-by-area aggregate and bar totals *)

Lemma key_cmp_eq : forall a b, key_cmp a b = Eq -> a = b.
Proof.
  intros [s1 z1] [s2 z2]. unfold key_cmp; simpl.
  destruct (String.compare s1 s2) eqn:E; try discriminate.
  apply String.compare_eq_iff in E. intro H. apply Z.compare_eq in H. subst. reflexivity.
Qed.

(** The counts of the rows of type [t] in an aggregate table. *)
Definition rows_total (t : string) (rows : list (string * string * nat)) : nat :=
  list_sum (map (fun '(d, _, n) => if String.eqb d t then n else 0%nat) rows).

Lemma total_of_add_total : forall t d n l,
  total_of t (add_total d n l) = ((if String.eqb d t then n else 0) + total_of t l)%nat.
Proof.
  intros t d n l. induction l as [|[t' m] l IH]; simpl.
  - destruct (String.eqb d t); lia.
  - destruct (String.eqb d t') eqn:E; simpl.
    + apply String.eqb_eq in E. subst t'.
      destruct (String.eqb d t); lia.
    + rewrite IH. destruct (String.eqb t' t), (String.eqb d t); lia.
Qed.

Lemma total_of_aggregate_sum : forall t rows,
  total_of t (aggregate_sum rows) = rows_total t rows.
Proof.
  intros t rows. unfold aggregate_sum, rows_total.
  assert (G : forall acc,
             total_of t (fold_left (fun acc '(d, _, n) => add_total d n acc) rows acc)
             = (total_of t acc +
                list_sum (map (fun '(d, _, n) => if String.eqb d t then n else 0%nat) rows))%nat).
  { induction rows as [|[[d a] n] rows IH]; intro acc; simpl; [lia|].
    rewrite IH, total_of_add_total. lia. }
  rewrite G. reflexivity.
Qed.

Lemma rows_total_chart_data : forall t df,
  rows_total t (chart_data df) = count_known_area t df.
Proof.
  intros t df. unfold rows_total, chart_data. rewrite map_map.
  pose proof (group_size_weight key_cmp key_cmp_eq
                (fun k => if String.eqb (fst k) t then 1%nat else 0%nat)
                (chart_keys df)) as G.
  transitivity (list_sum (map (fun kn => ((if String.eqb (fst (fst kn)) t then 1 else 0) * snd kn)%nat)
                              (group_size key_cmp (chart_keys df)))).
  { f_equal. apply map_ext. intros [[d a] n]. simpl. destruct (String.eqb d t); lia. }
  rewrite G. clear G.
  induction df as [|i df IH]; [reflexivity|].
  unfold chart_keys, count_known_area in *. simpl.
  destruct (primary_description i) as [d| | | |]; simpl; try exact IH;
    destruct (community_area i); simpl; try exact IH.
  destruct (String.eqb d t); simpl; rewrite IH; reflexivity.
Qed.

Lemma bar_totals_total : forall t df,
  total_of t (bar_totals df) = count_known_area t df.
Proof.
  intros. unfold bar_totals. rewrite total_of_aggregate_sum.
  apply rows_total_chart_data.
Qed.

Lemma add_total_keys : forall d n l x,
  In x (map fst (add_total d n l)) <-> d = x \/ In x (map fst l).
Proof.
  intros d n l x. induction l as [|[t' m] l IH]; simpl; [tauto|].
  destruct (String.eqb d t') eqn:E; simpl.
  - apply String.eqb_eq in E. subst. tauto.
  - rewrite IH. tauto.
Qed.

Lemma add_total_nodup : forall d n l,
  NoDup (map fst l) -> NoDup (map fst (add_total d n l)).
Proof.
  intros d n l. induction l as [|[t' m] l IH]; intro H; simpl.
  - repeat constructor. simpl. tauto.
  - inversion H as [|? ? Hni Hnd]; subst.
    destruct (String.eqb d t') eqn:E; simpl; constructor; auto.
    apply String.eqb_neq in E. rewrite add_total_keys. intros [->|Hx]; auto.
Qed.

Lemma bar_totals_nodup : forall df, NoDup (map fst (bar_totals df)).
Proof.
  intro df. unfold bar_totals, aggregate_sum.
  assert (G : forall (rows : list (string * string * nat)) (acc : list (string * nat)),
     NoDup (map fst acc) ->
     NoDup (map fst (fold_left (fun acc '(d, _, n) => add_total d n acc) rows acc))).
  { induction rows as [|[[d a] n] rows IH]; intros acc H; simpl; [exact H|].
    apply IH, add_total_nodup, H. }
  apply G. constructor.
Qed.

Lemma total_of_nodup : forall t n l,
  NoDup (map fst l) -> In (t, n) l -> total_of t l = n.
Proof.
  intros t n l. induction l as [|[t' m] l IH]; intros Hnd Hin; simpl in *; [tauto|].
  inversion Hnd as [|? ? Hni Hnd']; subst.
  destruct Hin as [E|Hin].
  - inversion E; subst. rewrite String.eqb_refl.
    assert (total_of t l = 0%nat); [|lia].
    clear IH Hnd Hnd'. induction l as [|[u k] l IHl]; simpl; [reflexivity|].
    simpl in Hni. destruct (String.eqb u t) eqn:Eu.
    + apply String.eqb_eq in Eu. subst. tauto.
    + apply IHl. tauto.
  - destruct (String.eqb t' t) eqn:Et.
    + apply String.eqb_eq in Et. subst. exfalso. apply Hni.
      apply (in_map fst) in Hin. exact Hin.
    + apply IH; assumption.
Qed.

Lemma chart_keys_cons_no_area : forall i df,
  community_area i = None -> chart_keys (i :: df) = chart_keys df.
Proof.
  intros i df H. unfold chart_keys. simpl. rewrite H.
  destruct (primary_description i); reflexivity.
Qed.

Lemma aggregate_sum_keys : forall rows x,
  In x (map fst (aggregate_sum rows)) <->
  In x (map (fun r => fst (fst r)) rows).
Proof.
  intros rows x. unfold aggregate_sum.
  assert (G : forall acc,
    In x (map fst (fold_left (fun acc '(d, _, n) => add_total d n acc) rows acc)) <->
    In x (map fst acc) \/ In x (map (fun r => fst (fst r)) rows)).
  { induction rows as [|[[d a] n] rows IH]; intro acc; simpl; [tauto|].
    rewrite IH, add_total_keys. tauto. }
  rewrite G. simpl. tauto.
Qed.

Lemma bar_totals_keys : forall df t,
  In t (map fst (bar_totals df)) -> (0 < count_known_area t df)%nat.
Proof.
  intros df t H. unfold bar_totals in H. apply aggregate_sum_keys in H.
  unfold chart_data in H. rewrite map_map in H.
  apply in_map_iff in H as [[[d a] n] [Hd Hin]]. simpl in Hd. subst d.
  apply (in_map fst) in Hin. simpl in Hin.
  apply (proj1 (group_size_keys key_cmp key_cmp_eq _ _)) in Hin.
  unfold chart_keys in Hin. apply in_flat_map in Hin as [i [Hi Hk]].
  unfold count_known_area.
  destruct (filter _ df) eqn:E; [|simpl; lia].
  assert (Hf : In i (filter (fun i =>
                    match primary_description i, community_area i with
                    | PyStr d, Some _ => String.eqb d t
                    | _, _ => false
                    end) df)).
  { apply filter_In. split; [exact Hi|].
    destruct (primary_description i), (community_area i); simpl in Hk;
      try contradiction.
    destruct Hk as [Hk|[]]. inversion Hk; subst. apply String.eqb_refl. }
  rewrite E in Hf. contradiction.
Qed.

(** Claim C10: the drilldown groups by (type, area) and drops rows with no
    area: an incident with a null community area changes neither the
    aggregate nor the bar totals, every bar total counts exactly the
    filtered incidents of its type with a known area, and a type none of
    whose incidents has an area gets no bar. *)
Theorem drilldown_drops_unknown_area : forall df t i,
  total_of t (bar_totals df) = count_known_area t df /\
  (count_known_area t df = 0%nat -> ~ In t (map fst (bar_totals df))) /\
  (community_area i = None ->
   chart_data (i :: df) = chart_data df /\ bar_totals (i :: df) = bar_totals df).
Proof.
  intros df t i. split; [|split].
  - apply bar_totals_total.
  - intros H0 Hin. apply bar_totals_keys in Hin. lia.
  - intro Hna. unfold bar_totals, chart_data.
    rewrite (chart_keys_cons_no_area i df Hna). split; reflexivity.
Qed.

Lemma drilldown_drops_unknown_area_witness :
  chart_data (sample_incident 20000 "THEFT" (PyBool true) None :: tie21)
  = chart_data tie21.
Proof.
  exact (proj1 (proj2 (proj2 (drilldown_drops_unknown_area tie21 "A"
                 (sample_incident 20000 "THEFT" (PyBool true) None))) eq_refl)).
Defined.

(* ----------------------------------------------------------------- *)
(** ** Bar chart *)

Lemma filter_length_le {A} : forall (p q : A -> bool) l,
  (forall x, p x = true -> q x = true) ->
  (length (filter p l) <= length (filter q l))%nat.
Proof.
  intros p q l H. induction l as [|x l IH]; simpl; [lia|].
  destruct (p x) eqn:Ep; [rewrite (H x Ep); simpl; lia|].
  destruct (q x); simpl; lia.
Qed.

(** Claim C5 fails: twenty-one crime types tied at one incident each all
    get rank 1, so the bar chart draws twenty-one bars. *)
Lemma bar_chart_ties_exceed_20 :
  length (bar_totals tie21) = 21%nat /\ length (bar_chart tie21) = 21%nat.
Proof. vm_compute. split; reflexivity. Qed.

(** Claim C5, as the code has it: a crime type gets a bar exactly when
    fewer than twenty types have a strictly larger total (Vega's rank with
    shared ranks for ties, filtered at [rank <= 20]); its total counts the
    filtered incidents of that type with a known community area; and
    any type whose total is at least that of a shown type is shown too. *)
Theorem bar_chart_rank_filter : forall df t n,
  (In (t, n) (bar_chart df) <->
   In (t, n) (bar_totals df) /\
   (length (filter (fun tm => (n <? snd tm)%nat) (bar_totals df)) < 20)%nat) /\
  (In (t, n) (bar_chart df) -> n = count_known_area t df) /\
  (forall u m, In (t, n) (bar_chart df) -> In (u, m) (bar_totals df) ->
     (n <= m)%nat -> In (u, m) (bar_chart df)).
Proof.
  intros df t n.
  assert (Hc : forall x, In x (bar_chart df) <->
            In x (bar_totals df) /\
            (length (filter (fun tm => (snd x <? snd tm)%nat) (bar_totals df)) < 20)%nat).
  { intro x. unfold bar_chart, rank_of. rewrite filter_In, Nat.leb_le.
    split; intros [A B]; (split; [exact A | lia]). }
  split; [|split].
  - apply Hc.
  - intro H. apply Hc in H as [H _].
    rewrite <- (total_of_nodup t n (bar_totals df) (bar_totals_nodup df) H).
    apply bar_totals_total.
  - intros u m H Hu Hle. apply Hc in H as [_ H]. apply Hc. split; [exact Hu|].
    simpl in *. eapply Nat.le_lt_trans; [|exact H].
    apply filter_length_le. intros [v k]. simpl.
    rewrite !Nat.ltb_lt. lia.
Qed.

Lemma bar_chart_rank_filter_witness :
  In ("A", 1%nat) (bar_chart tie21) /\ 1%nat = count_known_area "A" tie21.
Proof.
  assert (H : In ("A", 1%nat) (bar_chart tie21)) by (vm_compute; auto).
  split; [exact H|].
  exact (proj1 (proj2 (bar_chart_rank_filter tie21 "A" 1)) H).
Defined.

(* ----------------------------------------------------------------- *)
(** ** Community-area join key *)

(** In a converted [community_area] column, the texts "25" and "25.0"
    both cast to the integer 25, whatever the other cells are. *)
Lemma area_25 : forall fl,
  (exists q, fl "25" = Some (Fin q, true) /\ (q == 25)%Q) ->
  (exists q, fl "25.0" = Some (Fin q, false) /\ (q == 25)%Q) ->
  forall vs col areas,
    to_numeric fl vs = inr col -> astype_Int64 col = inr areas ->
    Forall2 (fun a v => v = PyStr "25" \/ v = PyStr "25.0" -> a = Some 25%Z) areas vs.
Proof.
  intros fl [q1 [H1 E1]] [q2 [H2 E2]] vs col areas Hn Ha.
  unfold to_numeric in Hn.
  destruct (mapM (num_cell fl) vs) as [e|cs] eqn:Hm; simpl in Hn; [discriminate|].
  inversion Hn; subst col. clear Hn.
  apply mapM_Forall2, Forall2_in_l in Hm.
  assert (C1 : num_cell fl (PyStr "25") = inr (CInt 25 (Fin q1)))
    by (unfold num_cell; rewrite H1; reflexivity).
  assert (C2 : num_cell fl (PyStr "25.0") = inr (CFloat (Fin q2)))
    by (unfold num_cell; rewrite H2; reflexivity).
  destruct (float_mode cs) eqn:Hf.
  - simpl in Ha. apply mapM_Forall2 in Ha.
    apply (Forall2_map_r_inv float_value (fun a f => float_to_Int64 f = inr a)) in Ha.
    eapply Forall2_weaken; [|exact (Forall2_compose _ _ _ _ _ Ha Hm)].
    intros a v [c [Hac [Hvc _]]] [-> | ->].
    + rewrite C1 in Hvc. inversion Hvc; subst c. cbn [float_value] in Hac.
      rewrite (float_to_Int64_whole q1 25 E1 int64_25) in Hac.
      inversion Hac. reflexivity.
    + rewrite C2 in Hvc. inversion Hvc; subst c. cbn [float_value] in Hac.
      rewrite (float_to_Int64_whole q2 25 E2 int64_25) in Hac.
      inversion Hac. reflexivity.
  - simpl in Ha.
    destruct (existsb _ (map int_value cs)); [discriminate|].
    inversion Ha; subst areas. clear Ha.
    apply Forall2_map_l, Forall2_map_l.
    assert (R : Forall2 (fun c (c' : NumCell) => c = c') cs cs) by apply Forall2_refl.
    eapply Forall2_weaken; [|exact (Forall2_compose _ _ _ _ _ R Hm)].
    intros c v [c' [<- [Hvc Hin]]] [-> | ->].
    + rewrite C1 in Hvc. inversion Hvc; subst c. reflexivity.
    + rewrite C2 in Hvc. inversion Hvc; subst c.
      exfalso. unfold float_mode in Hf. apply orb_false_iff in Hf as [Hf _].
      assert (T : existsb forces_float cs = true)
        by (apply existsb_exists; exists (CFloat (Fin q2)); auto).
      congruence.
Qed.

Lemma frame_empty_filter : forall (td : PyVal -> option Timestamp) rs,
  td PyNaN = None -> frame_empty rs = true -> filter (date_parses td) rs = [].
Proof.
  intros td rs Hn He. apply frame_empty_records in He.
  induction He as [|r rs Hr He IH]; [reflexivity|]. subst r. simpl.
  unfold date_parses at 1. cbv [cell find fst snd]. rewrite Hn. exact IH.
Qed.

(** Claim C4: [community_area] is cast to the nullable integer [Int64]:
    in any response that loads, every row whose record writes its area as
    "25" or as "25.0" holds the integer 25, whose [str] is the join key
    "25", whatever the other records hold.  The rows are matched, in
    order, with the records whose date parses.  It needs only that
    pandas' parser reads "25" and "25.0" as the number 25, "25" having
    the form of an integer, and that NaN is no date. *)
Theorem community_area_int_key : forall to_datetime floatify,
  to_datetime PyNaN = None ->
  (exists q, floatify "25" = Some (Fin q, true) /\ (q == 25)%Q) ->
  (exists q, floatify "25.0" = Some (Fin q, false) /\ (q == 25)%Q) ->
  forall resp j rs,
    body resp = inr j -> json_normalize j = inr rs ->
    snd (load_data to_datetime floatify (ret resp)) = [] ->
    Forall2 (fun i r =>
        cell r "community_area" = PyStr "25" \/ cell r "community_area" = PyStr "25.0" ->
        community_area i = Some 25%Z /\ option_map z_to_str (community_area i) = Some "25")
      (fst (load_data to_datetime floatify (ret resp)))
      (filter (fun r => match to_datetime (cell r "date") with
                        | Some _ => true | None => false end) rs).
Proof.
  intros td fl Hnan H25 H250 resp j rs Hb Hj Hok.
  unfold load_data in *.
  destruct (load_body td fl (ret resp)) as [e|df] eqn:Hl; [discriminate|]. simpl.
  destruct (load_data_inr td fl (ret resp) df Hl)
    as (resp' & j' & rs' & Er & _ & Hb' & Hj' & Hcase).
  inversion Er; subst resp'. rewrite Hb in Hb'. inversion Hb'; subst j'.
  rewrite Hj in Hj'. inversion Hj'; subst rs'. clear Er Hb' Hj'.
  destruct Hcase as [[He ->] | [_ Hp]].
  - change (filter (fun r => match td (cell r "date") with
                             | Some _ => true | None => false end) rs)
      with (filter (date_parses td) rs).
    rewrite (frame_empty_filter td rs Hnan He). constructor.
  - destruct (process_inr td fl rs df Hp)
      as (pcol & lats & lons & col & areas & _ & H1 & H2 & Hc & Hs & H3 & ->).
    pose proof (area_25 fl H25 H250 _ col areas Hc Hs) as A.
    unfold column in A.
    apply (Forall2_map_r_inv (fun rt => cell (fst rt) "community_area")) in A.
    pose proof (zip_rows _ lats lons areas _ _ H1 H2 H3 A) as Z1.
    pose proof (Forall2_and _ _ _ _ Z1 (zip_kept _ lats lons areas H1 H2 H3)) as Z2.
    pose proof (Forall2_compose _ _ _ _ _ Z2 (dropna_date_forall2 td rs)) as Z3.
    apply Forall2_map_l.
    eapply Forall2_weaken; [|exact Z3].
    intros [[[[r t] lat] lon] a] r' [rt [[Ha Hx] [Hr Ht]]] Hv.
    simpl in *. subst rt r'. simpl in Ha.
    rewrite (Ha Hv). split; reflexivity.
Qed.

Lemma community_area_int_key_witness :
  Forall2 (fun i r =>
      cell r "community_area" = PyStr "25" \/ cell r "community_area" = PyStr "25.0" ->
      community_area i = Some 25%Z /\ option_map z_to_str (community_area i) = Some "25")
    (fst (load_data sample_to_datetime sample_floatify (ret (ok_response area_payload))))
    (filter (fun r => match sample_to_datetime (cell r "date") with
                      | Some _ => true | None => false end)
       (match area_payload with JArr rs => rs | _ => [] end)).
Proof.
  refine (community_area_int_key sample_to_datetime sample_floatify _ _ _
            (ok_response area_payload) area_payload _ _ _ _).
  - reflexivity.
  - eexists. split; [reflexivity | unfold Qeq; reflexivity].
  - eexists. split; [reflexivity | unfold Qeq; reflexivity].
  - reflexivity.
  - reflexivity.
  - vm_compute. reflexivity.
Defined.

Lemma load_data_failure_degrades_witness :
  load_data sample_to_datetime sample_floatify
    (ret (mkResponse 503 "Service Unavailable" request_url
            (inl "Expecting value: line 1 column 1 (char 0)")))
  = ([], ["Failed to load data: 503 Server Error: Service Unavailable for url: https://data.cityofchicago.org/resource/ijzp-q8t2.json?%24limit=300000&%24order=date+DESC&%24where=date+%3E%3D+%272025-10-16T09%3A00%3A00%27"]) /\
  load_data sample_to_datetime sample_floatify
    (ret (mkResponse 200 "OK" request_url (inl "Expecting value: line 1 column 1 (char 0)")))
  = ([], ["Failed to load data: Expecting value: line 1 column 1 (char 0)"]) /\
  load_data sample_to_datetime sample_floatify
    (ret (ok_response (JArr [[("id", PyStr "1")]])))
  = ([], ["Failed to load data: 'date'"]).
Proof.
  destruct (load_data_failure_degrades sample_to_datetime sample_floatify)
    as (_ & _ & _ & H5xx & Hjson & Hdate & _).
  split; [|split].
  - apply H5xx. lia.
  - apply Hjson. lia.
  - apply Hdate; [lia | reflexivity | reflexivity].
Defined.

(* ----------------------------------------------------------------- *)
(** ** Filter engine: date bounds and type selection *)

Lemma fold_min_le : forall ds d x,
  In x (d :: ds) -> (fold_left Z.min ds d <= x)%Z.
Proof.
  induction ds as [|y ds IH]; intros d x H; simpl in *.
  - destruct H as [->|[]]. lia.
  - destruct H as [->|[->|H]].
    + specialize (IH (Z.min x y) (Z.min x y) (or_introl eq_refl)). lia.
    + specialize (IH (Z.min d x) (Z.min d x) (or_introl eq_refl)). lia.
    + apply IH. right. exact H.
Qed.

Lemma fold_max_ge : forall ds d x,
  In x (d :: ds) -> (x <= fold_left Z.max ds d)%Z.
Proof.
  induction ds as [|y ds IH]; intros d x H; simpl in *.
  - destruct H as [->|[]]. lia.
  - destruct H as [->|[->|H]].
    + specialize (IH (Z.max x y) (Z.max x y) (or_introl eq_refl)). lia.
    + specialize (IH (Z.max d x) (Z.max d x) (or_introl eq_refl)). lia.
    + apply IH. right. exact H.
Qed.

Lemma filter_all {A} : forall (f : A -> bool) l,
  (forall x, In x l -> f x = true) -> filter f l = l.
Proof.
  intros f l H. induction l as [|x l IH]; simpl; [reflexivity|].
  rewrite (H x (or_introl eq_refl)), IH; [reflexivity|].
  intros y Hy. apply H. right. exact Hy.
Qed.

(** The page's initial filter state (the date range from the smallest to
    the largest loaded date, no crime type selected, "All incidents")
    keeps every loaded row. *)
Theorem default_filters_keep_all : forall df lo hi,
  min_date df = Some lo -> max_date df = Some hi ->
  filtered_df lo hi [] "All incidents" df = df.
Proof.
  intros df lo hi Hlo Hhi. unfold filtered_df. apply filter_all.
  intros i Hi. unfold mask_row. simpl.
  unfold min_date, max_date in *.
  assert (Hd : In (date_only i) (map date_only df)) by (apply in_map, Hi).
  destruct (map date_only df) as [|d ds]; [contradiction|].
  inversion Hlo; inversion Hhi; subst.
  apply andb_true_iff. split; apply Z.leb_le.
  - apply fold_min_le, Hd.
  - apply fold_max_ge, Hd.
Qed.

Lemma default_filters_keep_all_witness :
  filtered_df 20000 20006 [] "All incidents" sample_week = sample_week.
Proof.
  apply default_filters_keep_all; vm_compute; reflexivity.
Defined.

(** A date range whose start lies after its end keeps no row. *)
Theorem inverted_range_empty : forall s e sel dom df,
  (e < s)%Z -> filtered_df s e sel dom df = [].
Proof.
  intros s e sel dom df H. unfold filtered_df.
  induction df as [|i df IH]; simpl; [reflexivity|].
  assert (Hm : mask_row s e sel dom i = false).
  { unfold mask_row.
    assert (Hb : ((s <=? date_only i) && (date_only i <=? e))%Z = false).
    { apply andb_false_iff.
      destruct (Z.leb_spec s (date_only i)); [right; apply Z.leb_gt; lia | left; reflexivity]. }
    rewrite Hb.
    destruct (String.eqb dom "Domestic only"), (String.eqb dom "Non-domestic only"), sel;
      reflexivity. }
  rewrite Hm. exact IH.
Qed.

Lemma inverted_range_empty_witness :
  filtered_df 20006 20000 [] "All incidents" sample_week = [].
Proof. apply inverted_range_empty. lia. Defined.

(* ----------------------------------------------------------------- *)
(** ** Crime-type options *)

Definition str_lt (a b : string) : Prop := String.compare a b = Lt.

Lemma str_lt_trans : forall a b c, str_lt a b -> str_lt b c -> str_lt a c.
Proof.
  unfold str_lt. intros a b c H1 H2.
  apply OrderedTypeEx.String_as_OT.cmp_lt in H1, H2.
  apply OrderedTypeEx.String_as_OT.cmp_lt.
  eapply OrderedTypeEx.String_as_OT.lt_trans; eassumption.
Qed.

Lemma insert_unique_in : forall s l x,
  In x (insert_unique s l) <-> s = x \/ In x l.
Proof.
  intros s l x. induction l as [|s' l IH]; simpl; [tauto|].
  destruct (String.compare s s') eqn:E; simpl.
  - apply String.compare_eq_iff in E. subst. tauto.
  - tauto.
  - rewrite IH. tauto.
Qed.

Lemma insert_unique_hdrel : forall s a l,
  str_lt a s -> HdRel str_lt a l -> HdRel str_lt a (insert_unique s l).
Proof.
  intros s a l Hs H. destruct l as [|s' l]; simpl.
  - constructor. exact Hs.
  - inversion H; subst. destruct (String.compare s s'); constructor; assumption.
Qed.

Lemma insert_unique_sorted : forall s l,
  Sorted str_lt l -> Sorted str_lt (insert_unique s l).
Proof.
  intros s l. induction l as [|s' l IH]; intro H; simpl.
  - repeat constructor.
  - inversion H as [|x y Hs Hhd]; subst.
    destruct (String.compare s s') eqn:E.
    + exact H.
    + constructor; [exact H|]. constructor. exact E.
    + constructor; [apply IH, Hs|].
      apply insert_unique_hdrel; [|exact Hhd].
      unfold str_lt. rewrite String.compare_antisym, E. reflexivity.
Qed.

Lemma strongly_sorted_nodup : forall l,
  StronglySorted str_lt l -> NoDup l.
Proof.
  induction l as [|x l IH]; intro H; constructor.
  - inversion H as [|? ? _ Hall]; subst. intro Hx.
    rewrite Forall_forall in Hall. specialize (Hall x Hx).
    unfold str_lt in Hall.
    assert (Hx' : String.compare x x = Eq)
      by (apply OrderedTypeEx.String_as_OT.cmp_eq; reflexivity).
    congruence.
  - inversion H; subst. apply IH. assumption.
Qed.

Lemma all_cats_fold_sorted : forall df acc, Sorted str_lt acc ->
  Sorted str_lt (fold_left (fun acc i => match primary_description i with
                                         | PyStr d => insert_unique d acc
                                         | _ => acc end) df acc).
Proof.
  induction df as [|i df IH]; intros acc H; simpl; [exact H|].
  apply IH. destruct (primary_description i); try exact H.
  apply insert_unique_sorted, H.
Qed.

Lemma all_cats_fold_in : forall d df acc,
  In d (fold_left (fun acc i => match primary_description i with
                                | PyStr d => insert_unique d acc
                                | _ => acc end) df acc)
  <-> In d acc \/ In (PyStr d) (map primary_description df).
Proof.
  intros d df. induction df as [|i df IH]; intro acc; simpl; [tauto|].
  rewrite IH. destruct (primary_description i) as [s'| | | |];
    [| split; [tauto | intros [H|[H|H]]; [tauto | discriminate | tauto]] ..].
  rewrite insert_unique_in. split.
  - intros [[H|H]|H]; [subst; right; left; reflexivity | tauto | tauto].
  - intros [H|[H|H]]; [tauto | inversion H; subst; left; left; reflexivity | tauto].
Qed.

(** The crime-type options are strictly ascending, hence free of
    duplicates, and are exactly the type strings present in the loaded
    rows (missing types are not offered). *)
Theorem all_cats_sorted_unique : forall df,
  StronglySorted str_lt (all_cats df) /\ NoDup (all_cats df) /\
  (forall d, In d (all_cats df) <-> In (PyStr d) (map primary_description df)).
Proof.
  intro df.
  assert (HSS : StronglySorted str_lt (all_cats df)).
  { apply Sorted_StronglySorted; [intros a b c; apply str_lt_trans|].
    apply all_cats_fold_sorted. constructor. }
  split; [exact HSS | split; [apply strongly_sorted_nodup, HSS|]].
  intro d. unfold all_cats. rewrite all_cats_fold_in. simpl. tauto.
Qed.

(* ----------------------------------------------------------------- *)
(** ** Loader: derived columns and area casts *)

(** The shape of a loaded row: its derived columns come from its parsed
    timestamp and its category from its type cell. *)
Lemma load_data_row_shape : forall td fl get i,
  In i (fst (load_data td fl get)) ->
  exists r pcol,
    td (cell r "date") = Some (occurred_at i) /\
    date_only i = ts_day (occurred_at i) /\
    hour i = (ts_sec (occurred_at i) / 3600)%Z /\
    weekday i = day_name (ts_day (occurred_at i)) /\
    primary_description i = cell r pcol /\
    domestic i = cell r "domestic" /\
    resident_category i = categorize_for_resident (primary_description i).
Proof.
  intros td fl get i. unfold load_data.
  destruct (load_body td fl get) as [e|df] eqn:Hl; simpl; [contradiction|].
  destruct (load_data_inr td fl get df Hl)
    as (resp & j & rs & _ & _ & _ & _ & [[_ ->] | [_ Hp]]); [contradiction|].
  destruct (process_inr td fl rs df Hp)
    as (pcol & lats & lons & col & areas & _ & _ & _ & _ & _ & _ & ->).
  intro H. apply in_map_iff in H as [[[[[r t] lat] lon] a] [<- Hin]].
  apply in_combine_l, in_combine_l, in_combine_l, dropna_date_in in Hin as [_ Ht].
  exists r, pcol. simpl. repeat split; auto.
Qed.

Lemma day_name_weekday_order : forall d, In (day_name d) weekday_order.
Proof.
  intro d. unfold day_name.
  assert (H : (0 <= d mod 7 < 7)%Z) by (apply Z.mod_pos_bound; lia).
  destruct (d mod 7)%Z as [|p|p] eqn:E; [simpl; tauto| |lia].
  do 6 (destruct p as [p|p|]; try (simpl; tauto)); lia.
Qed.

(** Heatmap: over any filtered view of the loaded rows, the (weekday, hour)
    cells count every row once, their weekdays are among the seven names
    the y axis orders, and their hours lie in 0..23 whenever the date
    parser yields seconds within the day. *)
Theorem heatmap_cells_in_grid : forall td fl get s e sel dom,
  (forall v t, td v = Some t -> (0 <= ts_sec t < 86400)%Z) ->
  list_sum (map snd (hourly (filtered_df s e sel dom (fst (load_data td fl get)))))
    = length (filtered_df s e sel dom (fst (load_data td fl get))) /\
  (forall wd h, In (wd, h) (map fst (hourly (filtered_df s e sel dom (fst (load_data td fl get))))) ->
     In wd weekday_order /\ (0 <= h <= 23)%Z).
Proof.
  intros td fl get s e sel dom Htd. split.
  - unfold hourly.
    pose proof (group_size_weight key_cmp key_cmp_eq (fun _ => 1%nat)
                  (map (fun i => (weekday i, hour i))
                     (filtered_df s e sel dom (fst (load_data td fl get))))) as G.
    rewrite list_sum_ones, length_map in G. rewrite <- G.
    f_equal. apply map_ext. intros [k n]. simpl. lia.
  - intros wd h Hk. unfold hourly in Hk.
    apply (proj1 (group_size_keys key_cmp key_cmp_eq _ _)) in Hk.
    apply in_map_iff in Hk as [i [Hi Hin]]. inversion Hi; subst wd h.
    apply in_filtered_df in Hin as [Hin _].
    destruct (load_data_row_shape td fl get i Hin)
      as (r & pcol & Ht & _ & Hh & Hw & _ & _ & _).
    split.
    + rewrite Hw. apply day_name_weekday_order.
    + rewrite Hh. specialize (Htd _ _ Ht).
      split; [apply Z.div_pos; lia|].
      assert (ts_sec (occurred_at i) / 3600 < 24)%Z
        by (apply Z.div_lt_upper_bound; lia).
      lia.
Qed.

Lemma heatmap_cells_in_grid_witness :
  list_sum (map snd (hourly (filtered_df 0 30000 [] "All incidents"
      (fst (load_data sample_to_datetime sample_floatify (ret (ok_response area_payload)))))))
  = length (filtered_df 0 30000 [] "All incidents"
      (fst (load_data sample_to_datetime sample_floatify (ret (ok_response area_payload))))).
Proof.
  apply (heatmap_cells_in_grid sample_to_datetime sample_floatify _ 0 30000 [] "All incidents").
  intros v t H. unfold sample_to_datetime in H.
  destruct v; try discriminate.
  destruct (String.eqb s "2025-03-10T14:00:00"); inversion H; subst; simpl; lia.
Defined.

Lemma cell_has_key : forall r c, cell r c <> PyNaN -> has_key c r = true.
Proof.
  intros r c H. unfold cell in H. unfold has_key.
  destruct (find (fun kv => String.eqb (fst kv) c) r) as [kv|] eqn:E; [|contradiction].
  apply find_some in E as [Hin Heq]. apply existsb_exists. exists kv. auto.
Qed.

Lemma Forall2_exists_l {A B} (P : A -> B -> Prop) : forall l m b,
  Forall2 P l m -> In b m -> exists a, In a l /\ P a b.
Proof.
  intros l m b F. induction F as [|a b' l m Hab F IH]; intro Hb; [contradiction|].
  destruct Hb as [<-|Hb].
  - exists a. split; [left; reflexivity | exact Hab].
  - destruct (IH Hb) as [a' [Ha' Hp]]. exists a'. split; [right; exact Ha' | exact Hp].
Qed.

(** One record whose date parses and whose community area pandas reads
    as a number with a fractional part makes the [Int64] cast raise, and
    the whole load then yields no rows and an error message, not just
    that row dropped. *)
Theorem load_data_nonintegral_area_fails : forall td fl resp rs r t s q,
  (status_code resp < 400 \/ 600 <= status_code resp)%Z ->
  body resp = inr (JArr rs) -> frame_empty rs = false -> has_col rs "date" = true ->
  In r rs -> td (cell r "date") = Some t ->
  cell r "community_area" = PyStr s -> s <> EmptyString ->
  fl s = Some (Fin q, false) -> Z.rem (Qnum q) (Zpos (Qden q)) <> 0%Z ->
  fst (load_data td fl (ret resp)) = [] /\ snd (load_data td fl (ret resp)) <> [].
Proof.
  intros td fl resp rs r t s q Hst Hb Hne Hd Hr Ht Hc Hs Hf Hq.
  enough (E : exists e, process td fl rs = inl e).
  { destruct E as [e He]. unfold load_data, load_body. simpl.
    rewrite (status_ok resp Hst). simpl. rewrite Hb. simpl. rewrite Hne, He.
    split; [reflexivity | discriminate]. }
  assert (Hcol : has_col rs "community_area" = true).
  { unfold has_col. apply existsb_exists. exists r. split; [exact Hr|].
    apply cell_has_key. rewrite Hc. discriminate. }
  assert (Hin : In (PyStr s) (column (dropna_date td rs) "community_area")).
  { unfold column. rewrite <- Hc. apply (in_map (fun rt => cell (fst rt) "community_area")
                                          _ (r, t)).
    apply dropna_date_keep; assumption. }
  assert (Hcell : num_cell fl (PyStr s) = inr (CFloat (Fin q))).
  { destruct s as [|ch s']; [contradiction|]. unfold num_cell. rewrite Hf. reflexivity. }
  unfold process. rewrite Hd. simpl.
  destruct (numeric_col _ _ _ "latitude"); simpl; [eexists; reflexivity|].
  destruct (numeric_col _ _ _ "longitude"); simpl; [eexists; reflexivity|].
  rewrite Hcol. unfold to_numeric.
  destruct (mapM (num_cell fl) _) as [e|cs] eqn:Hm; simpl; [eexists; reflexivity|].
  assert (Hc' : In (CFloat (Fin q)) cs).
  { apply mapM_Forall2 in Hm.
    destruct (Forall2_exists_l _ _ _ _ Hm Hin) as [c [Hc1 Hc2]].
    rewrite Hcell in Hc2. inversion Hc2; subst. exact Hc1. }
  assert (Hfm : float_mode cs = true).
  { unfold float_mode. apply orb_true_iff. left. apply existsb_exists.
    exists (CFloat (Fin q)). auto. }
  rewrite Hfm. simpl.
  assert (Hcast : float_to_Int64 (Fin q) = inl (cast_error "float64")).
  { unfold float_to_Int64. apply Z.eqb_neq in Hq. rewrite Hq. reflexivity. }
  destruct (mapM_fails float_to_Int64 (map float_value cs) (Fin q) _
              (in_map float_value _ _ Hc') Hcast) as [e' ->].
  simpl. eexists. reflexivity.
Qed.

Lemma load_data_nonintegral_area_fails_witness :
  fst (load_data sample_to_datetime sample_floatify (ret (ok_response (JArr
    [[("date", PyStr "2025-03-10T14:00:00"); ("primary_type", PyStr "THEFT");
      ("community_area", PyStr "25")];
     [("date", PyStr "2025-03-10T14:00:00"); ("primary_type", PyStr "THEFT");
      ("community_area", PyStr "25.5")]])))) = [].
Proof.
  apply (load_data_nonintegral_area_fails sample_to_datetime sample_floatify _
           [[("date", PyStr "2025-03-10T14:00:00"); ("primary_type", PyStr "THEFT");
             ("community_area", PyStr "25")];
            [("date", PyStr "2025-03-10T14:00:00"); ("primary_type", PyStr "THEFT");
             ("community_area", PyStr "25.5")]]
           [("date", PyStr "2025-03-10T14:00:00"); ("primary_type", PyStr "THEFT");
            ("community_area", PyStr "25.5")]
           (mkTimestamp 20157 50400) "25.5" (255 # 10)%Q).
  - simpl. lia.
  - reflexivity.
  - reflexivity.
  - reflexivity.
  - simpl. right. left. reflexivity.
  - reflexivity.
  - reflexivity.
  - discriminate.
  - reflexivity.
  - intro H. vm_compute in H. discriminate H.
Defined.

(* ----------------------------------------------------------------- *)
(** ** Map half of the drilldown *)

Lemma sum_add_total : forall a n l,
  list_sum (map snd (add_total a n l)) = (n + list_sum (map snd l))%nat.
Proof.
  intros a n l. induction l as [|[a' m] l IH]; simpl; [lia|].
  destruct (String.eqb a a'); simpl; [|rewrite IH]; lia.
Qed.

Lemma area_counts_sum : forall sel rows,
  list_sum (map snd (area_counts sel rows)) =
  list_sum (map (fun '(d, _, n) => if selected sel d then n else 0%nat) rows).
Proof.
  intros sel rows. unfold area_counts.
  assert (G : forall (rows : list (string * string * nat)) acc,
    list_sum (map snd (fold_left (fun acc '(_, a, n) => add_total a n acc)
                         (filter (fun '(d, _, _) => selected sel d) rows) acc))
    = (list_sum (map snd acc) +
       list_sum (map (fun '(d, _, n) => if selected sel d then n else 0%nat) rows))%nat).
  { induction rows0 as [|[[d a] n] rows0 IH]; intro acc; simpl; [lia|].
    destruct (selected sel d); simpl; rewrite IH; [rewrite sum_add_total|]; lia. }
  rewrite G. reflexivity.
Qed.

Lemma known_rows_total : forall df,
  list_sum (map (fun '(_, _, n) => n) (chart_data df)) =
  length (filter (fun i => match primary_description i, community_area i with
                           | PyStr _, Some _ => true
                           | _, _ => false
                           end) df).
Proof.
  intro df. unfold chart_data. rewrite map_map.
  pose proof (group_size_weight key_cmp key_cmp_eq (fun _ => 1%nat) (chart_keys df)) as G.
  rewrite list_sum_ones in G.
  transitivity (list_sum (map (fun kn => (1 * snd kn)%nat) (group_size key_cmp (chart_keys df)))).
  { f_equal. apply map_ext. intros [[d a] n]. simpl. lia. }
  rewrite G. clear G.
  induction df as [|i df IH]; [reflexivity|].
  unfold chart_keys in *. simpl.
  destruct (primary_description i); simpl; try exact IH;
    destruct (community_area i); simpl; rewrite ?IH; reflexivity.
Qed.

(** The map's total follows the bar selection: with a crime type [t]
    clicked, the drawn counts add up to the filtered incidents of type
    [t] with a known area; with nothing selected, to all filtered
    incidents with a known type and area. *)
Theorem map_total_follows_selection : forall df feats sel,
  list_sum (map (fun x => snd x) (map_rows sel feats (chart_data df))) =
  match sel with
  | Some t => count_known_area t df
  | None => length (filter (fun i => match primary_description i, community_area i with
                                     | PyStr _, Some _ => true
                                     | _, _ => false
                                     end) df)
  end.
Proof.
  intros df feats sel.
  transitivity (list_sum (map snd (area_counts sel (chart_data df)))).
  { unfold map_rows. rewrite map_map. reflexivity. }
  rewrite area_counts_sum. destruct sel as [t|].
  - rewrite <- rows_total_chart_data. unfold rows_total. reflexivity.
  - rewrite <- known_rows_total. f_equal.
Qed.

Lemma bump_pos {K} : forall (cmp : K -> K -> comparison) k l,
  Forall (fun kn => (1 <= snd kn)%nat) l ->
  Forall (fun kn => (1 <= snd kn)%nat) (bump cmp k l).
Proof.
  intros cmp k l. induction l as [|[k' n] l IH]; intro H; simpl.
  - repeat constructor.
  - inversion H as [|? ? Hn Hl]; subst. simpl in Hn.
    destruct (cmp k k'); repeat constructor; simpl; auto; lia.
Qed.

Lemma group_size_pos {K} : forall (cmp : K -> K -> comparison) ks,
  Forall (fun kn => (1 <= snd kn)%nat) (group_size cmp ks).
Proof.
  intros cmp ks. unfold group_size.
  assert (G : forall acc, Forall (fun kn => (1 <= snd kn)%nat) acc ->
    Forall (fun kn => (1 <= snd kn)%nat) (fold_left (fun acc k => bump cmp k acc) ks acc)).
  { induction ks as [|k ks IH]; intros acc H; simpl; [exact H|].
    apply IH, bump_pos, H. }
  apply G. constructor.
Qed.

Lemma add_total_pos : forall a n l,
  (1 <= n)%nat -> Forall (fun an => (1 <= snd an)%nat) l ->
  Forall (fun an => (1 <= snd an)%nat) (add_total a n l).
Proof.
  intros a n l Hn. induction l as [|[a' m] l IH]; intro H; simpl.
  - repeat constructor. exact Hn.
  - inversion H as [|? ? Hm Hl]; subst. simpl in Hm.
    destruct (String.eqb a a'); repeat constructor; simpl; auto; lia.
Qed.

Lemma area_counts_facts : forall sel (rows : list (string * string * nat)),
  Forall (fun '(_, _, n) => (1 <= n)%nat) rows ->
  Forall (fun an => (1 <= snd an)%nat) (area_counts sel rows) /\
  NoDup (map fst (area_counts sel rows)) /\
  (forall a, In a (map fst (area_counts sel rows)) <->
             exists d n, In (d, a, n) rows /\ selected sel d = true).
Proof.
  intros sel rows Hpos. unfold area_counts.
  assert (G : forall (rs : list (string * string * nat)) acc,
    Forall (fun '(_, _, n) => (1 <= n)%nat) rs ->
    Forall (fun an => (1 <= snd an)%nat) acc -> NoDup (map fst acc) ->
    let res := fold_left (fun acc '(_, a, n) => add_total a n acc)
                 (filter (fun '(d, _, _) => selected sel d) rs) acc in
    Forall (fun an => (1 <= snd an)%nat) res /\ NoDup (map fst res) /\
    (forall a, In a (map fst res) <->
       In a (map fst acc) \/ exists d n, In (d, a, n) rs /\ selected sel d = true)).
  { induction rs as [|[[d a] n] rs IH]; intros acc Hp Ha Hnd; simpl.
    - split; [exact Ha | split; [exact Hnd|]]. intro x. split; [tauto|].
      intros [H|[? [? [[] _]]]]. exact H.
    - inversion Hp as [|? ? Hn Hrs]; subst.
      destruct (selected sel d) eqn:Es; simpl.
      + destruct (IH (add_total a n acc) Hrs (add_total_pos a n acc Hn Ha)
                    (add_total_nodup a n acc Hnd)) as (H1 & H2 & H3).
        split; [exact H1 | split; [exact H2|]]. intro x. rewrite H3, add_total_keys.
        split.
        * intros [[<-|H]|(d' & n' & Hin & Hs)]; auto.
          -- right. exists d, n. auto.
          -- right. exists d', n'. auto.
        * intros [H|(d' & n' & [Hin|Hin] & Hs)]; auto.
          -- inversion Hin; subst. left. left. reflexivity.
          -- right. exists d', n'. auto.
      + destruct (IH acc Hrs Ha Hnd) as (H1 & H2 & H3).
        split; [exact H1 | split; [exact H2|]]. intro x. rewrite H3.
        split.
        * intros [H|(d' & n' & Hin & Hs)]; auto. right. exists d', n'. auto.
        * intros [H|(d' & n' & [Hin|Hin] & Hs)]; auto.
          -- inversion Hin; subst. congruence.
          -- right. exists d', n'. auto. }
  destruct (G rows [] Hpos (Forall_nil _) (NoDup_nil _)) as (H1 & H2 & H3).
  split; [exact H1 | split; [exact H2|]]. intro a. rewrite H3. simpl. tauto.
Qed.

Lemma chart_data_pos : forall df,
  Forall (fun '(_, _, n) => (1 <= n)%nat) (chart_data df).
Proof.
  intro df. unfold chart_data. apply Forall_map.
  eapply Forall_impl; [|apply group_size_pos]. intros [[d a] n]. simpl. auto.
Qed.

(** The map draws one shape per community area that has rows of the
    selected type (all types when nothing is selected), each area once,
    joined to its boundary feature, and always with a count of at least
    one: an area with no matching rows is not drawn at all, so the
    [isValid(...) ? ... : 0] fill never produces a zero. *)
Theorem map_draws_matching_areas_only : forall df feats sel,
  NoDup (map (fun x => fst (fst x)) (map_rows sel feats (chart_data df))) /\
  (forall a, In a (map (fun x => fst (fst x)) (map_rows sel feats (chart_data df))) <->
             exists d n, In (d, a, n) (chart_data df) /\ selected sel d = true) /\
  (forall a f c, In (a, f, c) (map_rows sel feats (chart_data df)) ->
     (1 <= c)%nat /\ f = lookup_feature feats a).
Proof.
  intros df feats sel.
  destruct (area_counts_facts sel (chart_data df) (chart_data_pos df)) as (Hp & Hnd & Hk).
  unfold map_rows. rewrite map_map. simpl.
  split; [exact Hnd | split; [exact Hk|]].
  intros a f c H. apply in_map_iff in H as [[a' n] [Heq Hin]].
  simpl in Heq. inversion Heq; subst.
  rewrite Forall_forall in Hp. split; [apply (Hp _ Hin) | reflexivity].
Qed.

